(** * Payday Loan Dashboard ([streamlit_app.py]): a shallow embedding

    The development follows the source file top to bottom:

    - [exn], [result] : the Python exceptions the script can meet and an
                        error monad for code that may raise;
    - [PyNumber]      : the numeric interface the duck-typed calculator
                        relies on, with two instances: binary64 floats (what
                        [st.number_input] and pandas hand to the script) and
                        exact rationals (Python's [Fraction]);
    - [LoanCalculator] and the three methods of the class;
    - the session-state callbacks of [sync_roi_and_investment];
    - [load_loan_data] over a list model of the pandas calls it makes;
    - the selection and parameter extraction at module scope.

    Cells hold numbers of an arbitrary type, texts or NaN; booleans and dates
    in a sheet, and the change of number representation a pandas column
    undergoes, are not modelled. *)

From Stdlib Require Import ZArith QArith Qcanon Bool List Lia Ascii String.
From Stdlib Require Import Floats.
From Stdlib Require Import Numbers.Cyclic.Int63.Uint63.
From stdpp Require Import gmap strings list.

Local Open Scope string_scope.
Local Open Scope Z_scope.

(** ** Exceptions and the error monad *)

(** The exception classes that can be raised by the operations the script
    performs.  [ReadError] stands for whatever [pd.ExcelFile] raises on a
    file it cannot read; it carries the text of the cause. *)
Inductive exn : Type :=
| ZeroDivisionError
| KeyError (key : string)
| IndexError
| AttributeError
| TypeError
| ReadError (cause : string).

Inductive result (A : Type) : Type :=
| Ok (a : A)
| Raise (e : exn).
Arguments Ok {A} a.
Arguments Raise {A} e.

Definition rbind {A B : Type} (m : result A) (k : A -> result B) : result B :=
  match m with
  | Ok a => k a
  | Raise e => Raise e
  end.

Notation "'let*' x ':=' m 'in' k" := (rbind m (fun x => k))
  (at level 10, x name, m at level 100, k at level 200).

(** ** Numbers *)

(** The calculator and the callbacks only use [+], [*], [/], [==], [>] and
    int literals on their arguments.  [of_int] is the coercion Python applies
    to an int literal that meets a value of the type; [num_div] is the
    quotient for a divisor that is not zero.  The laws are what the code
    relies on when it divides by a literal and by [max(_, 1)]: 1, 30 and 100
    are not zero, and a value equal to zero is below 1. *)
Class PyNumber (T : Type) : Type := {
  of_int : Z -> T;
  num_add : T -> T -> T;
  num_mul : T -> T -> T;
  num_div : T -> T -> T;
  num_eqb : T -> T -> bool;
  num_gtb : T -> T -> bool;
  one_nonzero : num_eqb (of_int 1) (of_int 0) = false;
  thirty_nonzero : num_eqb (of_int 30) (of_int 0) = false;
  hundred_nonzero : num_eqb (of_int 100) (of_int 0) = false;
  zero_below_one : forall d : T,
    num_eqb d (of_int 0) = true -> num_gtb (of_int 1) d = true
}.

(** Python floats: IEEE 754 binary64, the kernel's primitive floats. *)
Definition float_of_Z (z : Z) : float :=
  match z with
  | Z0 => PrimFloat.zero
  | Zpos _ => PrimFloat.of_uint63 (Uint63.of_Z z)
  | Zneg p => PrimFloat.opp (PrimFloat.of_uint63 (Uint63.of_Z (Zpos p)))
  end.

Lemma float_one_spec :
  Prim2SF (float_of_Z 1) = S754_finite false 4503599627370496 (-52).
Proof. vm_compute. reflexivity. Qed.

Lemma float_zero_below_one (d : float) :
  PrimFloat.eqb d (float_of_Z 0) = true ->
  PrimFloat.ltb d (float_of_Z 1) = true.
Proof.
  rewrite FloatAxioms.eqb_spec, FloatAxioms.ltb_spec, float_one_spec.
  change (Prim2SF (float_of_Z 0)) with (S754_zero false).
  destruct (Prim2SF d) as [s | s | | s m e].
  - destruct s; reflexivity.
  - destruct s; discriminate.
  - discriminate.
  - destruct s; discriminate.
Qed.

#[export] Instance float_number : PyNumber float := {|
  of_int := float_of_Z;
  num_add := PrimFloat.add;
  num_mul := PrimFloat.mul;
  num_div := PrimFloat.div;
  num_eqb := PrimFloat.eqb;
  num_gtb := fun x y => PrimFloat.ltb y x;
  one_nonzero := eq_refl;
  thirty_nonzero := eq_refl;
  hundred_nonzero := eq_refl;
  zero_below_one := float_zero_below_one
|}.

(** Exact rationals in lowest terms. *)
Lemma Qc_zero_below_one (d : Qc) :
  Qeq_bool d (Q2Qc (inject_Z 0)) = true ->
  negb (Qle_bool (Q2Qc (inject_Z 1)) d) = true.
Proof.
  intros E. apply Qeq_bool_iff in E.
  apply negb_true_iff.
  destruct (Qle_bool (Q2Qc (inject_Z 1)) d) eqn:L; [|reflexivity].
  apply Qle_bool_iff in L.
  assert (L' : (1 <= 0)%Q).
  { eapply Qle_trans; [|eapply Qle_trans; [exact L|]].
    - apply Qle_lteq; right. symmetry. apply Qred_correct.
    - apply Qle_lteq; right. rewrite E. apply Qred_correct. }
  exfalso. apply (Qlt_not_le 0 1); [reflexivity | exact L'].
Qed.

#[export] Instance Qc_number : PyNumber Qc := {|
  of_int := fun z => Q2Qc (inject_Z z);
  num_add := Qcplus;
  num_mul := Qcmult;
  num_div := Qcdiv;
  num_eqb := fun x y => Qeq_bool x y;
  num_gtb := fun x y => negb (Qle_bool x y);
  one_nonzero := eq_refl;
  thirty_nonzero := eq_refl;
  hundred_nonzero := eq_refl;
  zero_below_one := Qc_zero_below_one
|}.

Section Calculator.
Context {T : Type} `{PyNumber T}.

(** Python's [a / b]: raises [ZeroDivisionError] when [b == 0]. *)
Definition truediv (a b : T) : result T :=
  if num_eqb b (of_int 0) then Raise ZeroDivisionError else Ok (num_div a b).

(** Python's [max(a, b)]: [b] replaces [a] only when [b > a]. *)
Definition py_max (a b : T) : T :=
  if num_gtb b a then b else a.

(** [class LoanCalculator], fields set by [__init__]. *)
Record LoanCalculator : Type := {
  loan_amount : T;
  interest : T;
  late_fee : T;
  duration : T
}.

Definition total_repayment (self : LoanCalculator) : T :=
  num_add (num_add (loan_amount self) (interest self)) (late_fee self).

Definition calculate_apr (self : LoanCalculator) : result T :=
  if num_eqb (loan_amount self) (of_int 0) || num_eqb (duration self) (of_int 0)
  then Ok (of_int 0)
  else
    let* daily_interest := truediv (interest self) (loan_amount self) in
    let* per_day := truediv (num_mul daily_interest (of_int 365)) (duration self) in
    Ok (num_mul per_day (of_int 100)).

Definition calculate_monthly_payment (self : LoanCalculator) : result T :=
  let* months := truediv (duration self) (of_int 30) in
  truediv (total_repayment self) (py_max months (of_int 1)).

(** [x] shown with two decimals (as [f"{x:.2f}"] does) reads [cents / 100]:
    [x] lies strictly within half a cent of it. *)
Definition shows_as (x : T) (cents : Z) : bool :=
  num_gtb (num_mul x (of_int 1000)) (of_int (10 * cents - 5))
  && num_gtb (of_int (10 * cents + 5)) (num_mul x (of_int 1000)).
End Calculator.
Arguments LoanCalculator T : clear implicits.

Definition calculator_of_ints {T : Type} `{PyNumber T} (la i lf d : Z) : LoanCalculator T :=
  {| loan_amount := of_int la; interest := of_int i;
     late_fee := of_int lf; duration := of_int d |}.


(** ** Session state: [sync_roi_and_investment] *)

(** [st.session_state] is a dictionary from widget keys to values; the three
    keys the function touches all hold numbers. *)

Section Synchronizer.
Context {T : Type} `{PyNumber T}.

(** [st.session_state[key]] as an expression. *)
Definition session_get (key : string) (st : gmap string T) : result T :=
  match st !! key with
  | Some v => Ok v
  | None => Raise (KeyError key)
  end.

(** The two guarded assignments at the top of the function. *)
Definition init_session_state (st : gmap string T) : gmap string T :=
  let st :=
    match st !! "initial_investment" with
    | None => <["initial_investment" := of_int 1000]> st
    | Some _ => st
    end in
  match st !! "roi_percentage" with
  | None => <["roi_percentage" := of_int 5]> st
  | Some _ => st
  end.

Definition update_investment (st : gmap string T) : result (gmap string T) :=
  let* roi := session_get "roi_percentage" st in
  let* rate := truediv roi (of_int 100) in
  let* amount := session_get "investment_amount" st in
  Ok (<["initial_investment" := num_mul rate amount]> st).

Definition update_roi (st : gmap string T) : result (gmap string T) :=
  let* invested := session_get "initial_investment" st in
  let* amount := session_get "investment_amount" st in
  let* share := truediv invested amount in
  Ok (<["roi_percentage" := num_mul share (of_int 100)]> st).

(** The two [st.sidebar.number_input] widgets.  When the user changes a
    widget that has a [key] and an [on_change] callback, Streamlit stores
    the new value under the key and then runs the callback. *)
Inductive edit : Type :=
| EditInitialInvestment (x : T)
| EditRoiPercentage (x : T).

Definition on_edit (e : edit) (st : gmap string T) : result (gmap string T) :=
  match e with
  | EditInitialInvestment x => update_roi (<["initial_investment" := x]> st)
  | EditRoiPercentage x => update_investment (<["roi_percentage" := x]> st)
  end.
End Synchronizer.

(** ** The pandas calls of [load_loan_data] *)

(** A spreadsheet cell as pandas hands it over: empty ([NaN]), a number or a
    text.  Column labels are cells too, since line 19 promotes a data row to
    the header. *)
Inductive cell (num : Type) : Type :=
| NaN
| Num (x : num)
| Str (s : string).
Arguments NaN {num}.
Arguments Num {num} x.
Arguments Str {num} s.

(** A [DataFrame]: the column labels (not necessarily distinct) and the rows
    in index order. *)
Record DataFrame (num : Type) : Type := {
  columns : list (cell num);
  rows : list (list (cell num))
}.
Arguments columns {num} d.
Arguments rows {num} d.

(** The uploaded file: either [pd.ExcelFile] cannot read it, or it is a
    workbook, a finite map from sheet names to grids of cells. *)
Inductive upload (num : Type) : Type :=
| Unreadable (cause : string)
| Workbook (sheets : gmap string (list (list (cell num)))).
Arguments Unreadable {num} cause.
Arguments Workbook {num} sheets.

(** Code that may raise and may report through [st.error]: the state is the
    list of messages shown so far. *)
Definition io (A : Type) : Type := list string -> result A * list string.

Definition io_ret {A : Type} (a : A) : io A := fun log => (Ok a, log).

Definition io_bind {A B : Type} (m : io A) (k : A -> io B) : io B :=
  fun log =>
    match m log with
    | (Ok a, log') => k a log'
    | (Raise e, log') => (Raise e, log')
    end.

Definition lift {A : Type} (r : result A) : io A := fun log => (r, log).

Definition st_error (msg : string) : io unit := fun log => (Ok tt, (log ++ [msg])%list).

(** [try: body except Exception as e: handler(e)]. *)
Definition try_except {A : Type} (body : io A) (handler : exn -> io A) : io A :=
  fun log =>
    match body log with
    | (Raise e, log') => handler e log'
    | returned => returned
    end.

Notation "'let!' x ':=' m 'in' k" := (io_bind m (fun x => k))
  (at level 10, x name, m at level 100, k at level 200).
Notation "m ';;' k" := (io_bind m (fun _ => k))
  (at level 100, k at level 200, right associativity).

Definition required_columns : list string :=
  ["Loan ID"; "Loan Amount ($C)"; "Duration"; "Interest ($C)";
   "Late Fee & Interest ($C)"; "Total Payment ($C)"].

Definition numeric_columns : list string :=
  ["Loan Amount ($C)"; "Interest ($C)"; "Late Fee & Interest ($C)";
   "Total Payment ($C)"; "Duration"].

Section Loader.
Context {num : Type}.

(** Four library functions are left open: whether pandas offers the [.str]
    accessor on a list of labels (it decides from the dtype it inferred for
    them), Python's [str.strip], the text to number conversion of
    [pd.to_numeric] ([None] when the text is not a number) and [str(e)] for
    an exception. *)
Variable str_accessor : list (cell num) -> bool.
Variable strip : string -> string.
Variable parse_numeric : string -> option num.
Variable exn_str : exn -> string.

Definition notna (c : cell num) : bool :=
  match c with NaN => false | _ => true end.

Definition is_str (c : cell num) : bool :=
  match c with Str _ => true | _ => false end.

(** The label [c] is the text [col]. *)
Definition label_is (col : string) (c : cell num) : bool :=
  match c with Str s => String.eqb s col | _ => false end.

(** The cell at position [j] of a row; pandas pads short rows with NaN. *)
Definition at_position (j : nat) (r : list (cell num)) : cell num :=
  default NaN (r !! j).

(** All positions of the label [col], ascending. *)
Definition positions (col : string) (labels : list (cell num)) : list nat :=
  List.filter (fun j => label_is col (at_position j labels))
              (seq 0 (length labels)).

(** [col in loan_data.columns]. *)
Definition has_column (col : string) (df : DataFrame num) : bool :=
  existsb (label_is col) (columns df).

(** [pd.ExcelFile(file)]. *)
Definition ExcelFile (file : upload num)
  : result (gmap string (list (list (cell num)))) :=
  match file with
  | Unreadable cause => Raise (ReadError cause)
  | Workbook sheets => Ok sheets
  end.

(** [excel_data.parse(name)] with the default [header=0]: the first row of
    the sheet gives the labels (line 19 replaces them at once, so their
    mangling by pandas is not modelled), the rest are the rows. *)
Definition parse (excel_data : gmap string (list (list (cell num))))
           (name : string) : result (DataFrame num) :=
  match excel_data !! name with
  | None => Raise (KeyError name)
  | Some [] => Ok {| columns := []; rows := [] |}
  | Some (header :: body) => Ok {| columns := header; rows := body |}
  end.

(** [loan_data.iloc[0]]. *)
Definition iloc0 (df : DataFrame num) : result (list (cell num)) :=
  match rows df with
  | [] => Raise IndexError
  | r :: _ => Ok r
  end.

(** [loan_data.columns = labels]. *)
Definition set_columns (labels : list (cell num)) (df : DataFrame num)
  : DataFrame num :=
  {| columns := labels; rows := rows df |}.

(** [loan_data.drop(0).reset_index(drop=True)]. *)
Definition drop0 (df : DataFrame num) : result (DataFrame num) :=
  match rows df with
  | [] => Raise (KeyError "0")
  | _ :: rest => Ok {| columns := columns df; rows := rest |}
  end.

(** [loan_data.columns.str.strip()]: [AttributeError] when the accessor is
    not offered; otherwise a text is stripped and any other label becomes
    NaN. *)
Definition str_strip (labels : list (cell num)) : result (list (cell num)) :=
  if str_accessor labels
  then Ok (map (fun c => match c with Str s => Str (strip s) | _ => NaN end)
               labels)
  else Raise AttributeError.

(** [pd.to_numeric(_, errors='coerce')] on one cell. *)
Definition to_numeric (c : cell num) : cell num :=
  match c with
  | NaN => NaN
  | Num x => Num x
  | Str s => match parse_numeric s with Some x => Num x | None => NaN end
  end.

(** [loan_data[col] = pd.to_numeric(loan_data[col], errors='coerce')].
    [loan_data[col]] is a Series when the label occurs once; when it occurs
    several times it is a DataFrame, which [pd.to_numeric] refuses. *)
Definition to_numeric_column (col : string) (df : DataFrame num)
  : result (DataFrame num) :=
  match positions col (columns df) with
  | [] => Raise (KeyError col)
  | [j] => Ok {| columns := columns df;
                 rows := map (alter to_numeric j) (rows df) |}
  | _ => Raise TypeError
  end.

(** The [for col in [...]] loop of line 30. *)
Fixpoint to_numeric_columns (cols : list string) (df : DataFrame num)
  : result (DataFrame num) :=
  match cols with
  | [] => Ok df
  | col :: rest =>
      let* df' := to_numeric_column col df in
      to_numeric_columns rest df'
  end.

(** The positions a list of labels selects: for each label in turn, all of
    its positions; [KeyError] for a label that does not occur. *)
Definition indexer (cols : list string) (labels : list (cell num))
  : result (list nat) :=
  match find (fun col => negb (existsb (label_is col) labels)) cols with
  | Some col => Raise (KeyError col)
  | None => Ok (flat_map (fun col => positions col labels) cols)
  end.

(** [loan_data.dropna(subset=cols, inplace=True)]. *)
Definition dropna (cols : list string) (df : DataFrame num)
  : result (DataFrame num) :=
  let* idx := indexer cols (columns df) in
  Ok {| columns := columns df;
        rows := List.filter
                  (fun r => forallb (fun j => notna (at_position j r)) idx)
                  (rows df) |}.

(** [loan_data[cols]]. *)
Definition getitem_columns (cols : list string) (df : DataFrame num)
  : result (DataFrame num) :=
  let* idx := indexer cols (columns df) in
  Ok {| columns := map (fun j => at_position j (columns df)) idx;
        rows := map (fun r => map (fun j => at_position j r) idx) (rows df) |}.

Definition missing_sheet_message : string :=
  "The uploaded file must contain a sheet named 'Loan Data'.".

Definition missing_columns_message : string :=
  "The 'Loan Data' sheet must contain all required columns.".

(** Lines 19 to 21: promote the first row to the header, drop it, strip the
    labels. *)
Definition clean_header (loan_data : DataFrame num) : result (DataFrame num) :=
  let* header := iloc0 loan_data in
  let loan_data := set_columns header loan_data in
  let* loan_data := drop0 loan_data in
  let* stripped := str_strip (columns loan_data) in
  Ok (set_columns stripped loan_data).

(** Lines 30 to 36: coerce, drop, select. *)
Definition coerce_and_select (loan_data : DataFrame num)
  : result (DataFrame num) :=
  let* loan_data := to_numeric_columns numeric_columns loan_data in
  let* loan_data := dropna required_columns loan_data in
  getitem_columns required_columns loan_data.

(** The body of the [try]. *)
Definition load_body (file : upload num) : io (option (DataFrame num)) :=
  let! excel_data := lift (ExcelFile file) in
  if negb (bool_decide (is_Some (excel_data !! "Loan Data")))
  then st_error missing_sheet_message ;; io_ret None
  else
    let! loan_data := lift (parse excel_data "Loan Data") in
    let! loan_data := lift (clean_header loan_data) in
    if negb (forallb (fun col => has_column col loan_data) required_columns)
    then st_error missing_columns_message ;; io_ret None
    else
      let! selected := lift (coerce_and_select loan_data) in
      io_ret (Some selected).

Definition load_loan_data (file : upload num) : io (option (DataFrame num)) :=
  try_except (load_body file)
    (fun e => st_error ("Error loading data: " ++ exn_str e) ;; io_ret None).
End Loader.

(** ** Module scope: selecting a loan and extracting its parameters *)

Section Selection.
Context {num : Type} `{PyNumber num}.

(** [==] on two cells, as the comparison of line 115 meets them. *)
Definition cell_eqb (a b : cell num) : bool :=
  match a, b with
  | Num x, Num y => num_eqb x y
  | Str s, Str t => String.eqb s t
  | _, _ => false
  end.

(** [series[col]] on a row of the dataset: the value when the label occurs
    once; with a repeated label pandas returns a Series, which the scalar
    code of lines 118 to 121 cannot use. *)
Definition series_get (labels : list (cell num)) (row : list (cell num))
           (col : string) : result (cell num) :=
  match positions col labels with
  | [] => Raise (KeyError col)
  | [j] => Ok (at_position j row)
  | _ => Raise TypeError
  end.

(** [loan_data[loan_data['Loan ID'] == selected_loan_id].iloc[0]]. *)
Definition select_loan (selected_loan_id : cell num) (loan_data : DataFrame num)
  : result (list (cell num)) :=
  match positions "Loan ID" (columns loan_data) with
  | [] => Raise (KeyError "Loan ID")
  | [j] =>
      match List.filter (fun r => cell_eqb (at_position j r) selected_loan_id)
                        (rows loan_data) with
      | [] => Raise IndexError
      | r :: _ => Ok r
      end
  | _ => Raise TypeError
  end.

(** Line 120: [x if pd.notnull(x) else 0.0]. *)
Definition late_fee_or_default (x : cell num) : cell num :=
  if notna x then x else Num (of_int 0).

(** The four values handed to [LoanCalculator] on line 124. *)
Record parameters : Type := {
  p_loan_amount : cell num;
  p_interest : cell num;
  p_late_fee : cell num;
  p_duration : cell num
}.

Definition extract_parameters (labels : list (cell num)) (row : list (cell num))
  : result parameters :=
  let* la := series_get labels row "Loan Amount ($C)" in
  let* i := series_get labels row "Interest ($C)" in
  let* lf := series_get labels row "Late Fee & Interest ($C)" in
  let* d := series_get labels row "Duration" in
  Ok {| p_loan_amount := la; p_interest := i;
        p_late_fee := late_fee_or_default lf; p_duration := d |}.

(** The calculator of line 124 when the four values are numbers. *)
Definition calculator_of (p : parameters) : option (LoanCalculator num) :=
  match p_loan_amount p, p_interest p, p_late_fee p, p_duration p with
  | Num la, Num i, Num lf, Num d =>
      Some {| loan_amount := la; interest := i; late_fee := lf; duration := d |}
  | _, _, _, _ => None
  end.
End Selection.

(** ** Concrete library functions for the worked examples *)

(** The accessor is offered when some label is a text. *)
Definition has_text_label {num : Type} (labels : list (cell num)) : bool :=
  existsb is_str labels.

(** ASCII white space as [str.isspace] sees it. *)
Definition is_space (a : ascii) : bool :=
  let n := nat_of_ascii a in
  ((9 <=? n)%nat && (n <=? 13)%nat) || ((28 <=? n)%nat && (n <=? 32)%nat).

Fixpoint lstrip (s : list ascii) : list ascii :=
  match s with
  | [] => []
  | a :: t => if is_space a then lstrip t else s
  end.

Definition ascii_strip (s : string) : string :=
  string_of_list_ascii
    (List.rev (lstrip (List.rev (lstrip (list_ascii_of_string s))))).

(** Texts made of decimal digits only, read as a natural number. *)
Fixpoint digits_value (acc : Z) (s : list ascii) : option Z :=
  match s with
  | [] => Some acc
  | a :: t =>
      let n := nat_of_ascii a in
      if ((48 <=? n)%nat && (n <=? 57)%nat)
      then digits_value (10 * acc + Z.of_nat (n - 48)) t
      else None
  end.

Definition parse_digits {T : Type} `{PyNumber T} (s : string) : option T :=
  match list_ascii_of_string s with
  | [] => None
  | l => option_map of_int (digits_value 0 l)
  end.

Definition exn_name (e : exn) : string :=
  match e with
  | ZeroDivisionError => "division by zero"
  | KeyError key => key
  | IndexError => "single positional indexer is out-of-bounds"
  | AttributeError => "Can only use .str accessor with string values!"
  | TypeError => "arg must be a list, tuple, 1-d array, or Series"
  | ReadError cause => cause
  end.

(** The loader with these three functions, on float cells. *)
Definition load_example (file : upload float) : io (option (DataFrame float)) :=
  load_loan_data has_text_label ascii_strip parse_digits exn_name file.

(** A workbook with two good rows, one row without a late fee and one row
    whose amount is not a number; the columns are not in the required order
    and there is a column the loader does not ask for. *)
Definition example_workbook : upload float :=
  Workbook {[ "Loan Data" :=
    [ [Str "A"; Str "B"; Str "C"; Str "D"; Str "E"; Str "F"; Str "G"];
      [Str " Loan ID"; Str "Duration"; Str "Loan Amount ($C) "; Str "Notes";
       Str "Interest ($C)"; Str "Late Fee & Interest ($C)";
       Str "Total Payment ($C)"];
      [Str "L1"; Num (float_of_Z 14); Num (float_of_Z 500); Str "first";
       Str "75"; Num (float_of_Z 25); Num (float_of_Z 600)];
      [Str "L2"; Num (float_of_Z 60); Num (float_of_Z 1000); NaN;
       Num (float_of_Z 50); NaN; Num (float_of_Z 1050)];
      [Str "L3"; Num (float_of_Z 30); Str "n/a"; Str "x";
       Num (float_of_Z 10); Num (float_of_Z 0); Num (float_of_Z 10)];
      [Str "L4"; Num (float_of_Z 30); Num (float_of_Z 200); NaN;
       Num (float_of_Z 20); Num (float_of_Z 0); Num (float_of_Z 220)] ] ]}.

(** What the loader returns for it. *)
Definition example_dataset : DataFrame float :=
  {| columns := map Str required_columns;
     rows :=
       [ [Str "L1"; Num (float_of_Z 500); Num (float_of_Z 14);
          Num (float_of_Z 75); Num (float_of_Z 25); Num (float_of_Z 600)];
         [Str "L4"; Num (float_of_Z 200); Num (float_of_Z 30);
          Num (float_of_Z 20); Num (float_of_Z 0); Num (float_of_Z 220)] ] |}.

(** A workbook whose promoted header names [Loan ID] twice. *)
Definition duplicate_id_workbook : upload float :=
  Workbook {[ "Loan Data" :=
    [ [Str "A"; Str "B"; Str "C"; Str "D"; Str "E"; Str "F"; Str "G"];
      [Str "Loan ID"; Str "Loan ID"; Str "Loan Amount ($C)"; Str "Duration";
       Str "Interest ($C)"; Str "Late Fee & Interest ($C)"; Str "Total Payment ($C)"];
      [Str "L1"; Str "old-7"; Num (float_of_Z 500); Num (float_of_Z 14);
       Num (float_of_Z 75); Num (float_of_Z 25); Num (float_of_Z 600)] ] ]}.

(** ** The loader's result, row by row *)

(** The specification describes the loader one record at a time; these two
    definitions follow its words (section 4.1, steps 4 and 5), to be compared
    with what the column-wise code of [coerce_and_select] computes. *)
Section Records.
Context {num : Type}.
Variable parse_numeric : string -> option num.

Definition is_numeric (col : string) : bool :=
  existsb (String.eqb col) numeric_columns.

(** The fields of a source row under the required labels, in the required
    order: a numeric column coerced, [Loan ID] as it stands. *)
Definition record_of (labels : list (cell num)) (r : list (cell num))
  : list (cell num) :=
  flat_map
    (fun col =>
       map (fun j => if is_numeric col
                     then to_numeric parse_numeric (at_position j r)
                     else at_position j r)
           (positions col labels))
    required_columns.

(** The row after the loop of line 30, for numeric columns at positions
    [ks]. *)
Definition coerce_at (ks : list nat) (r : list (cell num)) : list (cell num) :=
  fold_left (fun r k => alter (to_numeric parse_numeric) k r) ks r.

(** A source row is valid when none of these fields is missing. *)
Definition valid_record (labels : list (cell num)) (r : list (cell num)) : bool :=
  forallb notna (record_of labels r).

(** What a cell of the output must be under a given label: present, and a
    number unless the label is [Loan ID]. *)
Definition field_ok (label c : cell num) : Prop :=
  exists col, label = Str col /\ In col required_columns /\ notna c = true
              /\ (col <> "Loan ID" -> exists x, c = Num x).
End Records.

(** Two session states in which [investment_amount] has been set to 3 by
    hand, on exact rationals and on floats. *)
Definition exact_session : gmap string Qc :=
  <["investment_amount" := of_int 3]> (init_session_state ∅).

Definition float_session : gmap string float :=
  <["investment_amount" := of_int 3]> (init_session_state ∅).

Definition other_sheet_workbook : gmap string (list (list (cell float))) :=
  {[ "Sheet1" := [[Str "Loan ID"]; [Str "L1"]] ]}.

Definition short_header_workbook : gmap string (list (list (cell float))) :=
  {[ "Loan Data" :=
       [ [Str "A"; Str "B"];
         [Str "Loan ID"; Str " Duration "];
         [Str "L1"; Num (float_of_Z 14)] ] ]}.

(** ** Module scope: from the dataset to the displayed metrics *)

(** Lines 111 to 127, the computing part of the script once a dataset has
    been loaded; the rendering calls ([st.write], [st.dataframe] of lines 107
    and 108, the displays from line 130 on) are not modelled.  The user's
    pick in the select box is the index [choice]. *)
Section Script.
Context {num : Type} `{PyNumber num}.

(** [Series.unique()]: the values in order of first appearance. *)
Fixpoint unique_from (seen values : list (cell num)) : list (cell num) :=
  match values with
  | [] => []
  | c :: rest =>
      if existsb (cell_eqb c) seen
      then unique_from seen rest
      else c :: unique_from (c :: seen) rest
  end.

(** Line 111, [loan_data['Loan ID'].unique()]: with a repeated label
    [loan_data['Loan ID']] is a DataFrame, which has no [unique]. *)
Definition loan_ids (loan_data : DataFrame num) : result (list (cell num)) :=
  match positions "Loan ID" (columns loan_data) with
  | [] => Raise (KeyError "Loan ID")
  | [j] => Ok (unique_from [] (map (at_position j) (rows loan_data)))
  | _ => Raise AttributeError
  end.

(** Line 112, [st.sidebar.selectbox]: one of the options (the first one
    unless the user picked another), [None] when there is no option. *)
Definition selectbox (options : list (cell num)) (choice : nat)
  : option (cell num) :=
  match options with
  | [] => None
  | first :: _ => Some (default first (options !! choice))
  end.

(** What lines 125 to 127 compute and lines 135 to 137 show. *)
Record metrics : Type := {
  shown_total_repayment : num;
  shown_apr : num;
  shown_monthly_payment : num
}.

Definition compute_metrics (calculator : LoanCalculator num) : result metrics :=
  let total := total_repayment calculator in
  let* apr := calculate_apr calculator in
  let* monthly_payment := calculate_monthly_payment calculator in
  Ok {| shown_total_repayment := total; shown_apr := apr;
        shown_monthly_payment := monthly_payment |}.

(** Lines 111 to 127.  A selection of [None] compares unequal to every Loan
    ID, as NaN does.  The arithmetic of the calculator raises [TypeError] on
    a text; a missing value among the other three parameters has no
    counterpart among the numbers of the model, and the result is then
    [Ok None]. *)
Definition show_loan (choice : nat) (loan_data : DataFrame num)
  : result (option metrics) :=
  let* ids := loan_ids loan_data in
  let selected_loan_id :=
    match selectbox ids choice with Some c => c | None => NaN end in
  let* selected_loan_data := select_loan selected_loan_id loan_data in
  let* p := extract_parameters (columns loan_data) selected_loan_data in
  match calculator_of p with
  | Some calculator =>
      let* m := compute_metrics calculator in Ok (Some m)
  | None =>
      if existsb is_str [p_loan_amount p; p_interest p; p_late_fee p; p_duration p]
      then Raise TypeError
      else Ok None
  end.
End Script.

(** A sheet with a valid header whose only data row lacks the duration. *)
Definition no_valid_row_sheets : gmap string (list (list (cell float))) :=
  {[ "Loan Data" :=
    [ [Str "A"; Str "B"; Str "C"; Str "D"; Str "E"; Str "F"];
      [Str "Loan ID"; Str "Loan Amount ($C)"; Str "Duration"; Str "Interest ($C)";
       Str "Late Fee & Interest ($C)"; Str "Total Payment ($C)"];
      [Str "L1"; Num (float_of_Z 500); NaN; Num (float_of_Z 75);
       Num (float_of_Z 25); Num (float_of_Z 600)] ] ]}.

(** A sheet whose header names [Duration] twice, and a sheet that has
    nothing below the spreadsheet's own header. *)
Definition duplicate_duration_sheets : gmap string (list (list (cell float))) :=
  {[ "Loan Data" :=
    [ [Str "A"; Str "B"; Str "C"; Str "D"; Str "E"; Str "F"; Str "G"];
      [Str "Loan ID"; Str "Loan Amount ($C)"; Str "Duration"; Str "Duration";
       Str "Interest ($C)"; Str "Late Fee & Interest ($C)";
       Str "Total Payment ($C)"];
      [Str "L1"; Num (float_of_Z 500); Num (float_of_Z 14); Num (float_of_Z 15);
       Num (float_of_Z 75); Num (float_of_Z 25); Num (float_of_Z 600)] ] ]}.

Definition header_only_sheets : gmap string (list (list (cell float))) :=
  {[ "Loan Data" := [ [Str "Loan ID"; Str "Duration"] ] ]}.

(** A float session in which [investment_amount] has been set to 0 by hand,
    and the exact session after the ROI input was edited to 10. *)
Definition zero_amount_session : gmap string float :=
  <["investment_amount" := of_int 0]> (init_session_state ∅).

Definition edited_exact_session : gmap string Qc :=
  <["initial_investment" := num_mul (num_div (of_int 10) (of_int 100)) (of_int 3)]>
    (<["roi_percentage" := of_int 10]> exact_session).

(** The labels of a loaded dataset: [n] times [Loan ID], then the five
    numeric labels. *)
Definition shaped_labels {num : Type} (n : nat) : list (cell num) :=
  (repeat (Str "Loan ID") n
   ++ [Str "Loan Amount ($C)"; Str "Duration"; Str "Interest ($C)";
       Str "Late Fee & Interest ($C)"; Str "Total Payment ($C)"])%list.

(** A row of a loaded dataset: [n] present cells, then five numbers. *)
Definition shaped_row {num : Type} (n : nat) (row : list (cell num)) : Prop :=
  exists ids a d i l t,
    row = (ids ++ [Num a; Num d; Num i; Num l; Num t])%list
    /\ length ids = n /\ forallb notna ids = true.

(** What the loader returns for [duplicate_id_workbook]. *)
Definition duplicate_id_dataset : DataFrame float :=
  {| columns := Str "Loan ID" :: map Str required_columns;
     rows := [ [Str "L1"; Str "old-7"; Num (float_of_Z 500); Num (float_of_Z 14);
                Num (float_of_Z 75); Num (float_of_Z 25); Num (float_of_Z 600)] ] |}.

(** A record with the six required fields whose late fee is missing (the
    loader returns no such record; the extraction of lines 118 to 121 is
    defined on it all the same). *)
Definition record_without_late_fee : list (cell float) :=
  [Str "L9"; Num (float_of_Z 100); Num (float_of_Z 30); Num (float_of_Z 5);
   NaN; Num (float_of_Z 105)].

(** * Theorems *)

(** ** The calculator *)

Section CalculatorFacts.
Context {T : Type} `{PyNumber T}.

Lemma truediv_nonzero (a b : T) :
  num_eqb b (of_int 0) = false -> truediv a b = Ok (num_div a b).
Proof. intros E. unfold truediv. rewrite E. reflexivity. Qed.

(** [max(x, 1)] is never equal to zero. *)
Lemma py_max_one_nonzero (x : T) :
  num_eqb (py_max x (of_int 1)) (of_int 0) = false.
Proof.
  unfold py_max.
  destruct (num_gtb (of_int 1) x) eqn:G.
  - apply one_nonzero.
  - destruct (num_eqb x (of_int 0)) eqn:E; [|reflexivity].
    rewrite (zero_below_one _ E) in G. discriminate.
Qed.

(** Neither division of [calculate_monthly_payment] can raise. *)
Lemma monthly_payment_returns (self : LoanCalculator T) :
  calculate_monthly_payment self =
  Ok (num_div (total_repayment self)
              (py_max (num_div (duration self) (of_int 30)) (of_int 1))).
Proof.
  unfold calculate_monthly_payment.
  rewrite (truediv_nonzero _ _ thirty_nonzero). simpl.
  apply truediv_nonzero, py_max_one_nonzero.
Qed.
End CalculatorFacts.

Lemma Ok_Qc_eq (x y : Qc) : (x == y)%Q -> Ok x = Ok y.
Proof. intros E. f_equal. apply Qc_is_canon, E. Qed.

(** C1, as amended: [calculate_apr] returns 0 whenever [loan_amount == 0] or
    [duration == 0], whatever the interest, and otherwise returns
    [(interest / loan_amount) * 365 / duration * 100]; in both cases it
    returns: the guard is the very test under which [/] would raise, so
    neither division can.  (The value of the second branch may itself be 0.) *)
Theorem calculate_apr_guarded {T : Type} `{PyNumber T} (self : LoanCalculator T) :
  calculate_apr self =
  Ok (if num_eqb (loan_amount self) (of_int 0) || num_eqb (duration self) (of_int 0)
      then of_int 0
      else num_mul
             (num_div (num_mul (num_div (interest self) (loan_amount self))
                               (of_int 365))
                      (duration self))
             (of_int 100)).
Proof.
  unfold calculate_apr.
  destruct (num_eqb (loan_amount self) (of_int 0)) eqn:Ela; [reflexivity|].
  destruct (num_eqb (duration self) (of_int 0)) eqn:Ed; [reflexivity|].
  cbn [orb]. rewrite (truediv_nonzero _ _ Ela). cbn [rbind].
  rewrite (truediv_nonzero _ _ Ed). reflexivity.
Qed.

(** C1, as stated, fails: with loan_amount = 100, interest = 0 and
    duration = 10 (floats) the result is 0 although neither the amount nor the
    duration is zero, so "0 exactly when loan_amount = 0 or duration = 0" does
    not hold. *)
Lemma calculate_apr_zero_without_guard :
  let self := calculator_of_ints (T := float) 100 0 0 10 in
  ~ (calculate_apr self = Ok (of_int 0) <->
     num_eqb (loan_amount self) (of_int 0) = true \/
     num_eqb (duration self) (of_int 0) = true).
Proof.
  intros self [to_guard _].
  destruct (to_guard eq_refl) as [E | E]; vm_compute in E; discriminate E.
Qed.

(** C2: [calculate_monthly_payment] returns [total_repayment()] divided by
    [max(duration / 30, 1)], and it does return (30 and the maximum are never
    zero); for (1000, 50, 0, 60) the result is 525, and for (500, 75, 25, 14),
    whose total repayment is 600, the floor at 1 makes it 600.  The examples
    are evaluated on floats and on exact rationals. *)
Theorem calculate_monthly_payment_formula :
  (forall (T : Type) (N : PyNumber T) (self : LoanCalculator T),
      calculate_monthly_payment self =
      Ok (num_div (total_repayment self)
                  (py_max (num_div (duration self) (of_int 30)) (of_int 1))))
  /\ calculate_monthly_payment (calculator_of_ints (T := float) 1000 50 0 60)
     = Ok (of_int 525)
  /\ calculate_monthly_payment (calculator_of_ints (T := Qc) 1000 50 0 60)
     = Ok (of_int 525)
  /\ total_repayment (calculator_of_ints (T := float) 500 75 25 14) = of_int 600
  /\ calculate_monthly_payment (calculator_of_ints (T := float) 500 75 25 14)
     = Ok (of_int 600)
  /\ calculate_monthly_payment (calculator_of_ints (T := Qc) 500 75 25 14)
     = Ok (of_int 600).
Proof.
  split; [intros; apply monthly_payment_returns|].
  split; [reflexivity|].
  split; [rewrite monthly_payment_returns; apply Ok_Qc_eq; reflexivity|].
  split; [reflexivity|].
  split; [reflexivity|].
  rewrite monthly_payment_returns. apply Ok_Qc_eq. reflexivity.
Qed.

(** C5: [total_repayment] returns [loan_amount + interest + late_fee]; for
    (500, 75, 25, 14) the total is 600, the APR shows as 391.07 with two
    decimals and the monthly payment is 600 (floats and exact rationals). *)
Theorem total_repayment_formula :
  (forall (T : Type) (N : PyNumber T) (self : LoanCalculator T),
      total_repayment self =
      num_add (num_add (loan_amount self) (interest self)) (late_fee self))
  /\ (let self := calculator_of_ints (T := float) 500 75 25 14 in
      total_repayment self = of_int 600
      /\ (exists apr, calculate_apr self = Ok apr /\ shows_as apr 39107 = true)
      /\ calculate_monthly_payment self = Ok (of_int 600))
  /\ (let self := calculator_of_ints (T := Qc) 500 75 25 14 in
      total_repayment self = of_int 600
      /\ (exists apr, calculate_apr self = Ok apr /\ shows_as apr 39107 = true)
      /\ calculate_monthly_payment self = Ok (of_int 600)).
Proof.
  split; [reflexivity|]. split.
  - cbv zeta. split; [reflexivity|]. split; [|reflexivity].
    eexists. split; [vm_compute; reflexivity | vm_compute; reflexivity].
  - cbv zeta. split; [apply Qc_is_canon; reflexivity|]. split.
    + eexists. split; [reflexivity|]. vm_compute. reflexivity.
    + rewrite monthly_payment_returns. apply Ok_Qc_eq. reflexivity.
Qed.

(** ** The session-state callbacks *)

Section SynchronizerFacts.
Context {T : Type} `{PyNumber T}.

Lemma update_investment_with_amount (st : gmap string T) (r a : T) :
  st !! "roi_percentage" = Some r ->
  st !! "investment_amount" = Some a ->
  update_investment st =
  Ok (<["initial_investment" := num_mul (num_div r (of_int 100)) a]> st).
Proof.
  intros Hr Ha. unfold update_investment, session_get.
  rewrite Hr. cbn [rbind].
  rewrite (truediv_nonzero _ _ hundred_nonzero). cbn [rbind].
  rewrite Ha. reflexivity.
Qed.

Lemma update_roi_with_amount (st : gmap string T) (v a : T) :
  st !! "initial_investment" = Some v ->
  st !! "investment_amount" = Some a ->
  num_eqb a (of_int 0) = false ->
  update_roi st =
  Ok (<["roi_percentage" := num_mul (num_div v a) (of_int 100)]> st).
Proof.
  intros Hv Ha Hnz. unfold update_roi, session_get.
  rewrite Hv. cbn [rbind]. rewrite Ha. cbn [rbind].
  rewrite (truediv_nonzero _ _ Hnz). reflexivity.
Qed.

(** Without the key [investment_amount] both callbacks raise. *)
Lemma on_edit_without_amount (e : edit) (st : gmap string T) :
  st !! "investment_amount" = None ->
  on_edit e st = Raise (KeyError "investment_amount").
Proof.
  intros Ha. destruct e as [x | x]; cbn [on_edit].
  - unfold update_roi, session_get.
    rewrite lookup_insert_eq. cbn [rbind].
    rewrite lookup_insert_ne by discriminate. rewrite Ha. reflexivity.
  - unfold update_investment, session_get.
    rewrite lookup_insert_eq. cbn [rbind].
    rewrite (truediv_nonzero _ _ hundred_nonzero). cbn [rbind].
    rewrite lookup_insert_ne by discriminate. rewrite Ha. reflexivity.
Qed.

(** The initialisation never creates the key. *)
Lemma init_session_state_amount (st : gmap string T) :
  init_session_state st !! "investment_amount" = st !! "investment_amount".
Proof.
  unfold init_session_state.
  destruct (st !! "initial_investment");
    repeat match goal with
           | |- context [match ?m !! "roi_percentage" with _ => _ end] =>
               destruct (m !! "roi_percentage")
           end;
    rewrite ?lookup_insert_ne by discriminate; reflexivity.
Qed.
End SynchronizerFacts.

(** C4 at its failing input: in the session state that
    [sync_roi_and_investment] sets up on first run (initial_investment =
    1000.0, roi_percentage = 5.0, no [investment_amount]), editing
    roi_percentage to 10 does not recompute initial_investment: the callback
    raises [KeyError] on [investment_amount]; so does editing
    initial_investment. *)
Theorem edit_raises_on_first_run :
  let st := init_session_state (T := float) ∅ in
  st !! "investment_amount" = None
  /\ on_edit (EditRoiPercentage (of_int 10)) st
     = Raise (KeyError "investment_amount")
  /\ on_edit (EditInitialInvestment (of_int 2000)) st
     = Raise (KeyError "investment_amount").
Proof.
  cbv zeta.
  assert (Ha : init_session_state (T := float) ∅ !! "investment_amount" = None)
    by (rewrite init_session_state_amount; apply lookup_empty).
  split; [exact Ha|].
  split; apply on_edit_without_amount, Ha.
Qed.

Lemma Qc_nonzero (a : Qc) : num_eqb a (of_int 0) = false -> a <> 0%Qc.
Proof.
  intros E ->. cbn in E. discriminate E.
Qed.

(** C10, as amended: on exact rationals, for every session state in which
    [investment_amount] is set and not zero, the two callbacks undo each
    other: [update_roi] then [update_investment] gives back the value of
    [initial_investment], and [update_investment] then [update_roi] gives
    back the value of [roi_percentage]. *)
Theorem callbacks_invert_exactly (st : gmap string Qc) (a : Qc) :
  st !! "investment_amount" = Some a ->
  num_eqb a (of_int 0) = false ->
  (forall v, st !! "initial_investment" = Some v ->
     exists st1 st2,
       update_roi st = Ok st1 /\ update_investment st1 = Ok st2
       /\ st2 !! "initial_investment" = Some v)
  /\ (forall r, st !! "roi_percentage" = Some r ->
     exists st1 st2,
       update_investment st = Ok st1 /\ update_roi st1 = Ok st2
       /\ st2 !! "roi_percentage" = Some r).
Proof.
  intros Ha Hnz.
  pose proof (Qc_nonzero _ Hnz) as Hne.
  assert (Hh : of_int (T := Qc) 100 <> 0%Qc) by (apply Qc_nonzero; reflexivity).
  split.
  - intros v Hv.
    eexists _, _. split; [apply (update_roi_with_amount st v a Hv Ha Hnz)|].
    split.
    + apply update_investment_with_amount.
      * apply lookup_insert_eq.
      * rewrite lookup_insert_ne by discriminate. exact Ha.
    + rewrite lookup_insert_eq. f_equal.
      cbn [num_mul num_div Qc_number].
      generalize dependent (of_int (T := Qc) 100). intros h Hh. field. auto.
  - intros r Hr.
    eexists _, _. split; [apply (update_investment_with_amount st r a Hr Ha)|].
    split.
    + apply update_roi_with_amount with (a := a).
      * apply lookup_insert_eq.
      * rewrite lookup_insert_ne by discriminate. exact Ha.
      * exact Hnz.
    + rewrite lookup_insert_eq. f_equal.
      cbn [num_mul num_div Qc_number].
      generalize dependent (of_int (T := Qc) 100). intros h Hh. field. auto.
Qed.

Lemma callbacks_invert_exactly_witness :
  exists st1 st2,
    update_roi exact_session = Ok st1 /\ update_investment st1 = Ok st2
    /\ st2 !! "initial_investment" = Some (of_int 1000).
Proof.
  refine (proj1 (callbacks_invert_exactly exact_session (of_int 3) _ _)
                (of_int 1000) _); vm_compute; reflexivity.
Defined.

(** C10, as stated, fails on floats: with initial_investment = 1000.0 and
    investment_amount = 3.0, [update_roi] then [update_investment] leaves
    999.9999999999998 in [initial_investment]. *)
Lemma float_callbacks_do_not_invert :
  float_session !! "investment_amount" = Some (of_int 3)
  /\ num_eqb (of_int (T := float) 3) (of_int 0) = false
  /\ float_session !! "initial_investment" = Some (of_int 1000)
  /\ ~ (exists st1 st2,
          update_roi float_session = Ok st1 /\ update_investment st1 = Ok st2
          /\ st2 !! "initial_investment" = Some (of_int 1000)).
Proof.
  split; [vm_compute; reflexivity|].
  split; [reflexivity|].
  split; [vm_compute; reflexivity|].
  intros (st1 & st2 & H1 & H2 & H3).
  rewrite (update_roi_with_amount float_session (of_int 1000) (of_int 3)) in H1
    by (vm_compute; reflexivity).
  injection H1 as <-.
  rewrite (update_investment_with_amount _ _ (of_int 3)
             (lookup_insert_eq _ _ _)) in H2
    by (rewrite lookup_insert_ne by discriminate; vm_compute; reflexivity).
  injection H2 as <-.
  rewrite lookup_insert_eq in H3.
  vm_compute in H3. discriminate H3.
Qed.

(** ** The loader: failure paths *)

Section LoaderFailures.
Context {num : Type}.
Variable str_accessor : list (cell num) -> bool.
Variable strip : string -> string.
Variable parse_numeric : string -> option num.
Variable exn_str : exn -> string.

Abbreviation load := (load_loan_data str_accessor strip parse_numeric exn_str).

Lemma parse_is_Some (sheets : gmap string (list (list (cell num))))
      (raw : DataFrame num) :
  parse sheets "Loan Data" = Ok raw ->
  bool_decide (is_Some (sheets !! "Loan Data")) = true.
Proof.
  unfold parse. intros P. apply bool_decide_eq_true.
  destruct (sheets !! "Loan Data"); [eauto | discriminate].
Qed.

Lemma missing_column_fails_check (df : DataFrame num) (col : string) :
  In col required_columns -> has_column col df = false ->
  forallb (fun col => has_column col df) required_columns = false.
Proof.
  intros Hin Hcol.
  destruct (forallb _ required_columns) eqn:F; [|reflexivity].
  rewrite forallb_forall in F. rewrite (F col Hin) in Hcol. discriminate.
Qed.

(** C6: a workbook without a sheet named "Loan Data" yields no dataset, and
    the one message reported is the missing-sheet message of line 14. *)
Theorem missing_sheet_reported
        (sheets : gmap string (list (list (cell num)))) (log : list string) :
  sheets !! "Loan Data" = None ->
  load (Workbook sheets) log = (Ok None, (log ++ [missing_sheet_message])%list).
Proof.
  intros Hno.
  unfold load_loan_data, try_except, load_body, io_bind, lift; cbn [ExcelFile].
  rewrite bool_decide_eq_false_2; [reflexivity|].
  rewrite Hno. intros [x Hx]. discriminate.
Qed.

(** C7: when the "Loan Data" sheet, once its header is promoted and
    stripped, lacks one of the six required columns, the loader yields no
    dataset and reports exactly the missing-columns message of line 26. *)
Theorem missing_columns_reported
        (sheets : gmap string (list (list (cell num))))
        (raw df : DataFrame num) (col : string) (log : list string) :
  parse sheets "Loan Data" = Ok raw ->
  clean_header str_accessor strip raw = Ok df ->
  In col required_columns ->
  has_column col df = false ->
  load (Workbook sheets) log
  = (Ok None, (log ++ [missing_columns_message])%list).
Proof.
  intros Hparse Hclean Hin Hcol.
  unfold load_loan_data, try_except, load_body, io_bind, lift; cbn [ExcelFile].
  rewrite (parse_is_Some _ _ Hparse). cbn [negb].
  rewrite Hparse, Hclean.
  rewrite (missing_column_fails_check df col Hin Hcol). reflexivity.
Qed.

(** C8: [load_loan_data] always returns, it never ends in [Raise]: either it
    returns a dataset and reports nothing, or it returns [None] after
    reporting exactly one message.  Path by path: an unreadable file gives
    [None] and the catch-all message with the cause of the failed read; a
    workbook without the sheet gives [None] and the message of line 14; an
    exception raised while the sheet is parsed and its header promoted and
    stripped gives [None] and the catch-all message for that exception; a
    missing required column gives [None] and the message of line 26; an
    exception raised by lines 30 to 36 gives [None] and the catch-all message
    for it; and only when all of these steps succeed is a dataset returned,
    the one lines 30 to 36 computed, with nothing reported. *)
Theorem load_never_raises (file : upload num) (log : list string) :
  ((exists ds, load file log = (Ok (Some ds), log))
   \/ (exists msg, load file log = (Ok None, (log ++ [msg])%list)))
  /\ load file log =
     match file with
     | Unreadable cause =>
         (Ok None,
          (log ++ [("Error loading data: " ++ exn_str (ReadError cause))%string])%list)
     | Workbook sheets =>
         match sheets !! "Loan Data" with
         | None => (Ok None, (log ++ [missing_sheet_message])%list)
         | Some _ =>
             match (let* raw := parse sheets "Loan Data" in
                    clean_header str_accessor strip raw) with
             | Raise e =>
                 (Ok None,
                  (log ++ [("Error loading data: " ++ exn_str e)%string])%list)
             | Ok df =>
                 if forallb (fun col => has_column col df) required_columns
                 then
                   match coerce_and_select parse_numeric df with
                   | Ok out => (Ok (Some out), log)
                   | Raise e =>
                       (Ok None,
                        (log ++ [("Error loading data: " ++ exn_str e)%string])%list)
                   end
                 else (Ok None, (log ++ [missing_columns_message])%list)
             end
         end
     end.
Proof.
  split.
  - unfold load_loan_data, try_except, load_body, io_bind, lift, st_error, io_ret.
    destruct (ExcelFile file) as [sheets | e]; [|right; eauto].
    destruct (negb (bool_decide (is_Some (sheets !! "Loan Data"))));
      [right; eauto|].
    destruct (parse sheets "Loan Data") as [raw | e]; [|right; eauto].
    destruct (clean_header str_accessor strip raw) as [df | e]; [|right; eauto].
    destruct (negb (forallb (fun col => has_column col df) required_columns));
      [right; eauto|].
    destruct (coerce_and_select parse_numeric df) as [out | e];
      [left; eauto | right; eauto].
  - unfold load_loan_data, try_except, load_body, io_bind, lift, st_error, io_ret.
    destruct file as [cause | sheets]; cbn [ExcelFile]; [reflexivity|].
    destruct (sheets !! "Loan Data") as [sheet|] eqn:Hsheet.
    + rewrite bool_decide_eq_true_2 by eauto. cbn [negb].
      destruct (parse sheets "Loan Data") as [raw | e]; cbn [rbind];
        [|reflexivity].
      destruct (clean_header str_accessor strip raw) as [df | e];
        [|reflexivity].
      destruct (forallb (fun col => has_column col df) required_columns);
        cbn [negb]; [|reflexivity].
      destruct (coerce_and_select parse_numeric df); reflexivity.
    + rewrite bool_decide_eq_false_2 by (intros [x Hx]; discriminate).
      reflexivity.
Qed.
End LoaderFailures.

Lemma missing_sheet_reported_witness :
  load_example (Workbook other_sheet_workbook) []
  = (Ok None, [missing_sheet_message]).
Proof.
  apply (missing_sheet_reported has_text_label ascii_strip parse_digits exn_name
           other_sheet_workbook []).
  vm_compute. reflexivity.
Defined.

Lemma missing_columns_reported_witness :
  load_example (Workbook short_header_workbook) []
  = (Ok None, [missing_columns_message]).
Proof.
  refine (missing_columns_reported has_text_label ascii_strip parse_digits exn_name
            short_header_workbook
            {| columns := [Str "A"; Str "B"];
               rows := [[Str "Loan ID"; Str " Duration "];
                        [Str "L1"; Num (float_of_Z 14)]] |}
            {| columns := [Str "Loan ID"; Str "Duration"];
               rows := [[Str "L1"; Num (float_of_Z 14)]] |}
            "Interest ($C)" [] _ _ _ _).
  - vm_compute. reflexivity.
  - vm_compute. reflexivity.
  - simpl. tauto.
  - vm_compute. reflexivity.
Defined.

(** ** The loader: what a successful load returns *)

Section ListFacts.
Context {A B : Type}.

Lemma map_flat_map {C : Type} (f : B -> C) (g : A -> list B) (l : list A) :
  map f (flat_map g l) = flat_map (fun x => map f (g x)) l.
Proof.
  induction l as [|x l IH]; [reflexivity|].
  cbn [flat_map]. rewrite map_app, IH. reflexivity.
Qed.

Lemma flat_map_ext_In (f g : A -> list B) (l : list A) :
  (forall x, In x l -> f x = g x) -> flat_map f l = flat_map g l.
Proof.
  induction l as [|x l IH]; intros E; [reflexivity|].
  cbn [flat_map]. rewrite (E x (or_introl eq_refl)), IH; [reflexivity|].
  intros y Hy. apply E. right. exact Hy.
Qed.

Lemma forallb_of_map (p : B -> bool) (f : A -> B) (l : list A) :
  forallb p (map f l) = forallb (fun x => p (f x)) l.
Proof.
  induction l as [|x l IH]; [reflexivity|]. cbn. rewrite IH. reflexivity.
Qed.

Lemma Forall2_In_l (P : A -> B -> Prop) (l : list A) (k : list B) (x : A) :
  Forall2 P l k -> In x l -> exists y, In y k /\ P x y.
Proof.
  induction 1 as [|a b l k Hab _ IH]; intros Hin; [destruct Hin|].
  destruct Hin as [<- | Hin].
  - exists b. split; [left; reflexivity | exact Hab].
  - destruct (IH Hin) as (y & Hy & Hxy). exists y. split; [right|]; assumption.
Qed.

Lemma Forall2_In_r (P : A -> B -> Prop) (l : list A) (k : list B) (y : B) :
  Forall2 P l k -> In y k -> exists x, In x l /\ P x y.
Proof.
  induction 1 as [|a b l k Hab _ IH]; intros Hin; [destruct Hin|].
  destruct Hin as [<- | Hin].
  - exists a. split; [left; reflexivity | exact Hab].
  - destruct (IH Hin) as (x & Hx & Hxy). exists x. split; [right|]; assumption.
Qed.

Lemma Forall2_flat_map {C : Type} (P : B -> C -> Prop)
      (f : A -> list B) (g : A -> list C) (l : list A) :
  (forall x, In x l -> Forall2 P (f x) (g x)) ->
  Forall2 P (flat_map f l) (flat_map g l).
Proof.
  induction l as [|x l IH]; intros E; [constructor|].
  cbn [flat_map]. apply Forall2_app.
  - apply E. left. reflexivity.
  - apply IH. intros y Hy. apply E. right. exact Hy.
Qed.

Lemma Forall2_map_same {C : Type} (P : B -> C -> Prop)
      (f : A -> B) (g : A -> C) (l : list A) :
  (forall x, In x l -> P (f x) (g x)) -> Forall2 P (map f l) (map g l).
Proof.
  induction l as [|x l IH]; intros E; [constructor|].
  cbn [map]. constructor.
  - apply E. left. reflexivity.
  - apply IH. intros y Hy. apply E. right. exact Hy.
Qed.

Lemma seq_plus (a s n : nat) : seq (a + s) n = map (Nat.add a) (seq s n).
Proof.
  revert s. induction n as [|n IH]; intros s; [reflexivity|].
  cbn [seq map]. f_equal. rewrite <- IH. f_equal. lia.
Qed.
End ListFacts.

Section Cells.
Context {num : Type}.
Variable parse_numeric : string -> option num.

Abbreviation to_num := (to_numeric parse_numeric).

Lemma to_numeric_idempotent (c : cell num) : to_num (to_num c) = to_num c.
Proof.
  destruct c as [| x | s]; cbn; [reflexivity | reflexivity |].
  destruct (parse_numeric s); reflexivity.
Qed.

Lemma to_numeric_present (c : cell num) :
  notna (to_num c) = true -> exists x, to_num c = Num x.
Proof.
  destruct c as [| x | s]; cbn; [discriminate | eauto |].
  destruct (parse_numeric s); [eauto | discriminate].
Qed.

Lemma at_position_alter (j k : nat) (r : list (cell num)) :
  at_position j (alter to_num k r)
  = if Nat.eq_dec j k then to_num (at_position j r) else at_position j r.
Proof.
  unfold at_position. destruct (Nat.eq_dec j k) as [-> | Hne].
  - rewrite list_lookup_alter_eq. destruct (r !! k); reflexivity.
  - rewrite list_lookup_alter_ne by congruence. reflexivity.
Qed.

Lemma at_position_coerce_out (ks : list nat) (j : nat) (r : list (cell num)) :
  ~ In j ks ->
  at_position j (coerce_at parse_numeric ks r) = at_position j r.
Proof.
  revert r. induction ks as [|k ks IH]; intros r Hn; [reflexivity|].
  change (coerce_at parse_numeric (k :: ks) r)
    with (coerce_at parse_numeric ks (alter to_num k r)).
  rewrite IH by (intros Hin; apply Hn; right; exact Hin).
  rewrite at_position_alter.
  destruct (Nat.eq_dec j k) as [-> | _]; [|reflexivity].
  exfalso. apply Hn. left. reflexivity.
Qed.

Lemma at_position_coerce_in (ks : list nat) (j : nat) (r : list (cell num)) :
  In j ks ->
  at_position j (coerce_at parse_numeric ks r) = to_num (at_position j r).
Proof.
  revert r. induction ks as [|k ks IH]; intros r Hin; [destruct Hin|].
  change (coerce_at parse_numeric (k :: ks) r)
    with (coerce_at parse_numeric ks (alter to_num k r)).
  destruct (in_dec Nat.eq_dec j ks) as [Hks | Hks].
  - rewrite IH by exact Hks. rewrite at_position_alter.
    destruct (Nat.eq_dec j k); [apply to_numeric_idempotent | reflexivity].
  - rewrite at_position_coerce_out by exact Hks. rewrite at_position_alter.
    destruct (Nat.eq_dec j k) as [_ | Hne]; [reflexivity|].
    destruct Hin as [-> | Hin]; [congruence | contradiction].
Qed.

End Cells.

Section Labels.
Context {num : Type}.

Lemma label_is_Str (col : string) (c : cell num) :
  label_is col c = true -> c = Str col.
Proof.
  destruct c as [| x | s]; cbn; try discriminate.
  intros E. apply String.eqb_eq in E. subst. reflexivity.
Qed.

Lemma label_is_unique (col col' : string) (c : cell num) :
  label_is col c = true -> label_is col' c = true -> col = col'.
Proof.
  intros E E'. apply label_is_Str in E, E'. congruence.
Qed.

Lemma positions_In (col : string) (labels : list (cell num)) (j : nat) :
  In j (positions col labels) <-> label_is col (at_position j labels) = true.
Proof.
  unfold positions. rewrite List.filter_In, List.in_seq. split; [tauto|].
  intros E. split; [|exact E]. split; [lia|]. cbn.
  destruct (Nat.lt_ge_cases j (length labels)) as [Hlt | Hge]; [exact Hlt|].
  unfold at_position in E. rewrite lookup_ge_None_2 in E by exact Hge.
  discriminate E.
Qed.

Lemma positions_none (col : string) (labels : list (cell num)) :
  (forall c, In c labels -> label_is col c = false) ->
  positions col labels = [].
Proof.
  intros Hno.
  destruct (positions col labels) as [|j l] eqn:E; [reflexivity|].
  assert (Hj : In j (positions col labels)) by (rewrite E; left; reflexivity).
  apply positions_In in Hj. unfold at_position in Hj.
  destruct (labels !! j) as [c|] eqn:Hc; [|discriminate].
  cbn in Hj. rewrite Hno in Hj; [discriminate|].
  apply list_elem_of_In. eapply list_elem_of_lookup_2. exact Hc.
Qed.

Lemma positions_app (col : string) (l1 l2 : list (cell num)) :
  positions col (l1 ++ l2)
  = (positions col l1 ++ map (Nat.add (length l1)) (positions col l2))%list.
Proof.
  unfold positions. rewrite List.length_app, List.seq_app, List.filter_app. f_equal.
  - apply List.filter_ext_in. intros j Hj. apply in_seq in Hj.
    unfold at_position. rewrite lookup_app_l by lia. reflexivity.
  - replace (0 + length l1)%nat with (length l1 + 0)%nat by lia.
    rewrite seq_plus, List.filter_map_swap. f_equal.
    apply List.filter_ext. intros j. unfold at_position.
    rewrite lookup_app_r by lia.
    replace (length l1 + j - length l1)%nat with j by lia. reflexivity.
Qed.
End Labels.

Section LoaderSuccess.
Context {num : Type}.
Variable str_accessor : list (cell num) -> bool.
Variable strip : string -> string.
Variable parse_numeric : string -> option num.
Variable exn_str : exn -> string.

Abbreviation load' := (load_loan_data str_accessor strip parse_numeric exn_str).
Abbreviation record := (record_of parse_numeric).
Abbreviation valid := (valid_record parse_numeric).

Lemma is_numeric_In (col : string) :
  is_numeric col = true <-> In col numeric_columns.
Proof.
  unfold is_numeric. rewrite existsb_exists. split.
  - intros (c & Hc & E). apply String.eqb_eq in E. subst. exact Hc.
  - intros Hc. exists col. split; [exact Hc | apply String.eqb_refl].
Qed.

(** The loop of line 30 succeeds only when every numeric label occurs
    exactly once; it leaves the labels alone and coerces those positions. *)
Lemma to_numeric_columns_spec (cols : list string) (df df' : DataFrame num) :
  to_numeric_columns parse_numeric cols df = Ok df' ->
  columns df' = columns df
  /\ exists ks,
      Forall2 (fun col k => positions col (columns df) = [k]) cols ks
      /\ rows df' = map (coerce_at parse_numeric ks) (rows df).
Proof.
  revert df. induction cols as [|col cols IH]; intros df.
  - cbn. intros [= <-]. split; [reflexivity|].
    exists []. split; [constructor|]. symmetry. apply map_id.
  - cbn [to_numeric_columns]. unfold to_numeric_column.
    destruct (positions col (columns df)) as [|j [|j' l]] eqn:P;
      cbn [rbind]; try discriminate.
    intros Hrest. apply IH in Hrest. cbn [columns rows] in Hrest.
    destruct Hrest as (Hcols & ks & Hks & Hrows).
    split; [exact Hcols|].
    exists (j :: ks). split; [constructor; assumption|].
    rewrite Hrows, map_map. reflexivity.
Qed.

Lemma indexer_spec (cols : list string) (labels : list (cell num))
      (idx : list nat) :
  indexer cols labels = Ok idx ->
  idx = flat_map (fun col => positions col labels) cols.
Proof.
  unfold indexer. destruct (find _ cols); [discriminate|].
  intros [= <-]. reflexivity.
Qed.

(** Reading the coerced row at the selected positions gives the record of
    the source row. *)
Lemma project_coerced (labels : list (cell num)) (ks : list nat)
      (r : list (cell num)) :
  Forall2 (fun col k => positions col labels = [k]) numeric_columns ks ->
  map (fun j => at_position j (coerce_at parse_numeric ks r))
      (flat_map (fun col => positions col labels) required_columns)
  = record labels r.
Proof.
  intros Hks. unfold record_of. rewrite map_flat_map.
  apply flat_map_ext_In. intros col _.
  apply map_ext_in. intros j Hj.
  destruct (is_numeric col) eqn:Hnum.
  - apply at_position_coerce_in.
    apply is_numeric_In in Hnum.
    destruct (Forall2_In_l _ _ _ _ Hks Hnum) as (k & Hk & Hpos).
    rewrite Hpos in Hj. destruct Hj as [<- | []]. exact Hk.
  - apply at_position_coerce_out. intros Hin.
    destruct (Forall2_In_r _ _ _ _ Hks Hin) as (col' & Hcol' & Hpos).
    assert (Hj' : In j (positions col' labels))
      by (rewrite Hpos; left; reflexivity).
    apply positions_In in Hj, Hj'.
    rewrite (label_is_unique _ _ _ Hj Hj') in Hnum.
    apply is_numeric_In in Hcol'. congruence.
Qed.

(** Lines 30 to 36 in the words of the specification. *)
Lemma coerce_and_select_spec (df out : DataFrame num) :
  coerce_and_select parse_numeric df = Ok out ->
  Forall (fun col => exists j, positions col (columns df) = [j]) numeric_columns
  /\ columns out
     = flat_map (fun col => map (fun _ => Str col) (positions col (columns df)))
                required_columns
  /\ rows out
     = map (record (columns df)) (List.filter (valid (columns df)) (rows df)).
Proof.
  unfold coerce_and_select.
  destruct (to_numeric_columns parse_numeric numeric_columns df)
    as [df1 | e] eqn:E1; [|discriminate].
  destruct (to_numeric_columns_spec _ _ _ E1) as (Hcols & ks & Hks & Hrows).
  cbn [rbind]. unfold dropna, getitem_columns. rewrite Hcols.
  destruct (indexer required_columns (columns df)) as [idx | e] eqn:E2;
    [|discriminate].
  cbn [rbind columns rows]. rewrite E2. cbn [rbind]. intros [= <-].
  apply indexer_spec in E2. subst idx. cbn [columns rows].
  split; [|split].
  - apply List.Forall_forall. intros col Hcol.
    destruct (Forall2_In_l _ _ _ _ Hks Hcol) as (k & _ & Hk). eauto.
  - rewrite map_flat_map. apply flat_map_ext_In. intros col _.
    apply map_ext_in. intros j Hj.
    apply label_is_Str, positions_In, Hj.
  - rewrite Hrows, List.filter_map_swap, map_map.
    erewrite List.filter_ext; [apply map_ext; intros r; apply project_coerced, Hks|].
    intros r. unfold valid_record.
    rewrite <- (project_coerced (columns df) ks r Hks), forallb_of_map.
    reflexivity.
Qed.

(** A successful load went through every step of the [try] body. *)
Lemma load_success_steps (file : upload num) (log log' : list string)
      (out : DataFrame num) :
  load' file log = (Ok (Some out), log') ->
  exists sheets raw df,
    file = Workbook sheets
    /\ parse sheets "Loan Data" = Ok raw
    /\ clean_header str_accessor strip raw = Ok df
    /\ forallb (fun col => has_column col df) required_columns = true
    /\ coerce_and_select parse_numeric df = Ok out
    /\ log' = log.
Proof.
  unfold load_loan_data, try_except, load_body, io_bind, lift, st_error, io_ret.
  destruct file as [cause | sheets]; cbn [ExcelFile]; [discriminate|].
  destruct (bool_decide (is_Some (sheets !! "Loan Data")));
    cbn [negb]; [|discriminate].
  destruct (parse sheets "Loan Data") as [raw | e] eqn:P; [|discriminate].
  destruct (clean_header str_accessor strip raw) as [df | e] eqn:C; [|discriminate].
  destruct (forallb (fun col => has_column col df) required_columns) eqn:F;
    cbn [negb]; [|discriminate].
  destruct (coerce_and_select parse_numeric df) as [out' | e] eqn:S;
    [|discriminate].
  intros [= <- <-]. exists sheets, raw, df. auto 10.
Qed.

Lemma required_not_id_numeric (col : string) :
  In col required_columns -> col <> "Loan ID" -> is_numeric col = true.
Proof.
  intros Hin Hne. cbn in Hin.
  repeat (destruct Hin as [<- | Hin]; [first [congruence | reflexivity]|]).
  destruct Hin.
Qed.

(** Every field of the record of a valid row is present, and a number
    unless it stands under [Loan ID]. *)
Lemma record_fields_ok (labels : list (cell num)) (r : list (cell num)) :
  valid labels r = true ->
  Forall2 field_ok
    (flat_map (fun col => map (fun _ => Str col) (positions col labels))
              required_columns)
    (record labels r).
Proof.
  intros Hvalid. unfold valid_record in Hvalid.
  rewrite forallb_forall in Hvalid.
  unfold record_of. apply Forall2_flat_map. intros col Hcol.
  apply Forall2_map_same. intros j Hj.
  set (c := if is_numeric col
            then to_numeric parse_numeric (at_position j r)
            else at_position j r).
  assert (Hc : notna c = true).
  { apply Hvalid. unfold record_of. apply List.in_flat_map.
    exists col. split; [exact Hcol|]. apply List.in_map_iff. exists j. auto. }
  exists col. repeat split; [exact Hcol | exact Hc |].
  intros Hne. subst c.
  rewrite (required_not_id_numeric col Hcol Hne) in *.
  apply to_numeric_present, Hc.
Qed.

Lemma numeric_singletons (labels : list (cell num)) :
  Forall (fun col => exists j, positions col labels = [j]) numeric_columns ->
  exists ja ji jl jt jd,
    positions "Loan Amount ($C)" labels = [ja]
    /\ positions "Interest ($C)" labels = [ji]
    /\ positions "Late Fee & Interest ($C)" labels = [jl]
    /\ positions "Total Payment ($C)" labels = [jt]
    /\ positions "Duration" labels = [jd].
Proof.
  unfold numeric_columns. intros Hall.
  inversion_clear Hall as [|? ? [ja Ea] Hall1].
  inversion_clear Hall1 as [|? ? [ji Ei] Hall2].
  inversion_clear Hall2 as [|? ? [jl El] Hall3].
  inversion_clear Hall3 as [|? ? [jt Et] Hall4].
  inversion_clear Hall4 as [|? ? [jd Ed] _].
  exists ja, ji, jl, jt, jd. auto.
Qed.

(** C3, as amended: after a successful load the dataset consists of the
    records of the valid source rows, in source order (a source row with a
    missing or non-numeric required value contributes nothing); every cell
    of it is present, and a number unless under [Loan ID]; its labels are
    required labels in the required order, one per occurrence in the
    stripped header (each numeric label occurs there exactly once), hence
    exactly the six required ones when the header names [Loan ID] once. *)
Theorem load_success_dataset (file : upload num) (log log' : list string)
        (out : DataFrame num) :
  load' file log = (Ok (Some out), log') ->
  exists sheets raw df,
    file = Workbook sheets
    /\ parse sheets "Loan Data" = Ok raw
    /\ clean_header str_accessor strip raw = Ok df
    /\ rows out
       = map (record (columns df)) (List.filter (valid (columns df)) (rows df))
    /\ Forall (fun r => Forall2 field_ok (columns out) r) (rows out)
    /\ columns out
       = flat_map (fun col => map (fun _ => Str col)
                                  (positions col (columns df)))
                  required_columns
    /\ Forall (fun col => exists j, positions col (columns df) = [j])
              numeric_columns
    /\ (forall j, positions "Loan ID" (columns df) = [j] ->
                  columns out = map Str required_columns).
Proof.
  intros Hload.
  destruct (load_success_steps _ _ _ _ Hload)
    as (sheets & raw & df & -> & Hparse & Hclean & _ & Hsel & _).
  destruct (coerce_and_select_spec _ _ Hsel) as (Hnum & Hcols & Hrows).
  exists sheets, raw, df. repeat split; try assumption.
  - rewrite Hrows, Hcols. apply List.Forall_forall. intros r Hr.
    apply List.in_map_iff in Hr. destruct Hr as (src & <- & Hsrc).
    apply List.filter_In in Hsrc. apply record_fields_ok, Hsrc.
  - intros j Hid. rewrite Hcols.
    destruct (numeric_singletons _ Hnum)
      as (ja & ji & jl & jt & jd & Ea & Ei & El & Et & Ed).
    cbn [flat_map required_columns].
    rewrite Hid, Ea, Ei, El, Et, Ed. reflexivity.
Qed.
End LoaderSuccess.

Lemma load_success_dataset_witness :
  exists sheets raw df,
    example_workbook = Workbook sheets
    /\ parse sheets "Loan Data" = Ok raw
    /\ clean_header has_text_label ascii_strip raw = Ok df
    /\ rows example_dataset
       = map (record_of parse_digits (columns df))
             (List.filter (valid_record parse_digits (columns df)) (rows df))
    /\ Forall (fun r => Forall2 field_ok (columns example_dataset) r)
              (rows example_dataset)
    /\ columns example_dataset
       = flat_map (fun col => map (fun _ => Str col)
                                  (positions col (columns df)))
                  required_columns
    /\ Forall (fun col => exists j, positions col (columns df) = [j])
              numeric_columns
    /\ (forall j, positions "Loan ID" (columns df) = [j] ->
                  columns example_dataset = map Str required_columns).
Proof.
  apply (load_success_dataset has_text_label ascii_strip parse_digits exn_name
           example_workbook [] [] example_dataset).
  vm_compute. reflexivity.
Defined.

(** C3, as stated, fails: a sheet whose promoted header names [Loan ID] twice
    loads successfully, and the dataset returned has seven columns, not the
    six required ones. *)
Lemma duplicate_loan_id_gives_seven_columns :
  exists out,
    load_example duplicate_id_workbook [] = (Ok (Some out), [])
    /\ length (columns out) = 7%nat
    /\ columns out <> map Str required_columns.
Proof.
  eexists. split; [vm_compute; reflexivity|].
  split; [reflexivity | discriminate].
Qed.

(** ** Module scope: the late fee of a loaded record *)

Section SelectionFacts.
Context {num : Type} `{PyNumber num}.
Variable str_accessor : list (cell num) -> bool.
Variable strip : string -> string.
Variable parse_numeric : string -> option num.
Variable exn_str : exn -> string.

(** The default of line 120 exists: a missing value becomes 0, a present
    one is kept. *)
Lemma late_fee_or_default_cases (x : cell num) :
  late_fee_or_default x = match x with NaN => Num (of_int 0) | _ => x end.
Proof. destruct x; reflexivity. Qed.

(** Labels that cannot match and the cells under them can be skipped. *)
Lemma series_get_skip (col : string) (l1 l2 r1 r2 : list (cell num)) :
  length r1 = length l1 ->
  (forall c, In c l1 -> label_is col c = false) ->
  series_get (l1 ++ l2) (r1 ++ r2) col = series_get l2 r2 col.
Proof.
  intros Hlen Hno. unfold series_get.
  rewrite positions_app, (positions_none col l1 Hno). cbn [app].
  destruct (positions col l2) as [|k [|k' l]]; cbn [map]; try reflexivity.
  f_equal. unfold at_position.
  rewrite lookup_app_r by lia.
  replace (length l1 + k - length r1)%nat with k by lia. reflexivity.
Qed.

(** Every record of a dataset the loader returned carries a number under
    "Late Fee & Interest ($C)", and that number, unchanged, is the [late_fee]
    of the calculator built for it. *)
Lemma loaded_late_fee_used_as_is
        (file : upload num) (log log' : list string) (out : DataFrame num)
        (row : list (cell num)) :
  load_loan_data str_accessor strip parse_numeric exn_str file log = (Ok (Some out), log') ->
  In row (rows out) ->
  exists la i lf d,
    series_get (columns out) row "Late Fee & Interest ($C)" = Ok (Num lf)
    /\ extract_parameters (columns out) row
       = Ok {| p_loan_amount := Num la; p_interest := Num i;
               p_late_fee := Num lf; p_duration := Num d |}
    /\ calculator_of {| p_loan_amount := Num la; p_interest := Num i;
                        p_late_fee := Num lf; p_duration := Num d |}
       = Some {| loan_amount := la; interest := i;
                 late_fee := lf; duration := d |}.
Proof.
  intros Hload Hrow.
  destruct (load_success_steps _ _ _ _ _ _ _ _ Hload)
    as (sheets & raw & df & _ & _ & _ & _ & Hsel & _).
  destruct (coerce_and_select_spec _ _ _ Hsel) as (Hnum & Hcols & Hrows).
  destruct (numeric_singletons _ Hnum)
    as (ja & ji & jl & jt & jd & Ea & Ei & El & Et & Ed).
  rewrite Hrows in Hrow. apply List.in_map_iff in Hrow.
  destruct Hrow as (src & <- & Hsrc). apply List.filter_In in Hsrc.
  destruct Hsrc as [_ Hvalid].
  unfold valid_record in Hvalid. revert Hvalid.
  rewrite Hcols. unfold record_of.
  cbn [flat_map required_columns]. rewrite Ea, Ei, El, Et, Ed.
  cbn [map app]. change (is_numeric "Loan ID") with false.
  change (is_numeric "Loan Amount ($C)") with true.
  change (is_numeric "Duration") with true.
  change (is_numeric "Interest ($C)") with true.
  change (is_numeric "Late Fee & Interest ($C)") with true.
  change (is_numeric "Total Payment ($C)") with true.
  cbv iota.
  rewrite forallb_app. cbn [forallb].
  intros Hvalid. apply andb_prop in Hvalid. destruct Hvalid as [_ Hvalid].
  repeat (apply andb_prop in Hvalid;
          let Hx := fresh "Hx" in destruct Hvalid as [Hx Hvalid];
          apply to_numeric_present in Hx).
  destruct Hx as [a Ha], Hx0 as [d Hd], Hx1 as [i Hi],
           Hx2 as [l Hl], Hx3 as [t Ht].
  rewrite Ha, Hd, Hi, Hl, Ht.
  assert (Hskip : forall col,
             String.eqb "Loan ID" col = false ->
             forall l2 r2,
               series_get
                 (map (fun _ : nat => Str "Loan ID")
                      (positions "Loan ID" (columns df)) ++ l2)
                 (map (fun j => at_position j src)
                      (positions "Loan ID" (columns df)) ++ r2) col
               = series_get l2 r2 col).
  { intros col Hcol l2 r2. apply series_get_skip.
    - rewrite !length_map. reflexivity.
    - intros c Hc. apply List.in_map_iff in Hc. destruct Hc as (j & <- & _).
      exact Hcol. }
  exists a, i, l, d.
  split; [rewrite Hskip by reflexivity; reflexivity|].
  split; [|reflexivity].
  unfold extract_parameters. rewrite !Hskip by reflexivity. reflexivity.
Qed.

(** C9: the late fee handed to the calculator is 0 when the record's
    "Late Fee & Interest ($C)" value is missing and the value itself, as it
    is, when it is present.  This holds for every record the parameters can
    be extracted from, and in particular for every record of a dataset the
    loader returned, for which the extraction always succeeds and the
    calculator is built. *)
Theorem late_fee_defaults_to_zero :
  (forall (labels row : list (cell num)) (x : cell num) (p : parameters),
      series_get labels row "Late Fee & Interest ($C)" = Ok x ->
      extract_parameters labels row = Ok p ->
      p_late_fee p = match x with NaN => Num (of_int 0) | _ => x end
      /\ forall c, calculator_of p = Some c ->
                   Num (late_fee c)
                   = match x with NaN => Num (of_int 0) | _ => x end)
  /\ (forall (file : upload num) (log log' : list string) (out : DataFrame num)
             (row : list (cell num)),
      load_loan_data str_accessor strip parse_numeric exn_str file log
      = (Ok (Some out), log') ->
      In row (rows out) ->
      exists x p c,
        series_get (columns out) row "Late Fee & Interest ($C)" = Ok x
        /\ extract_parameters (columns out) row = Ok p
        /\ calculator_of p = Some c
        /\ Num (late_fee c) = match x with NaN => Num (of_int 0) | _ => x end).
Proof.
  split.
  - intros labels row x p Hx Hp.
    assert (E : p_late_fee p = match x with NaN => Num (of_int 0) | _ => x end).
    { unfold extract_parameters in Hp. rewrite Hx in Hp.
      destruct (series_get labels row "Loan Amount ($C)"); [|discriminate].
      destruct (series_get labels row "Interest ($C)"); [|discriminate].
      cbn [rbind] in Hp.
      destruct (series_get labels row "Duration"); [|discriminate].
      cbn [rbind] in Hp. injection Hp as <-. cbn [p_late_fee].
      apply late_fee_or_default_cases. }
    split; [exact E|].
    intros c Hc. rewrite <- E. unfold calculator_of in Hc.
    destruct (p_loan_amount p); try discriminate.
    destruct (p_interest p); try discriminate.
    destruct (p_late_fee p); try discriminate.
    destruct (p_duration p); try discriminate.
    injection Hc as <-. reflexivity.
  - intros file log log' out row Hload Hrow.
    destruct (loaded_late_fee_used_as_is file log log' out row Hload Hrow)
      as (la & i & lf & d & Hget & Hextract & Hcalc).
    eexists _, _, _. split; [exact Hget|]. split; [exact Hextract|].
    split; [exact Hcalc | reflexivity].
Qed.
End SelectionFacts.

Lemma loaded_late_fee_used_as_is_witness :
  exists la i lf d,
    series_get (columns example_dataset)
               [Str "L1"; Num (float_of_Z 500); Num (float_of_Z 14);
                Num (float_of_Z 75); Num (float_of_Z 25); Num (float_of_Z 600)]
               "Late Fee & Interest ($C)" = Ok (Num lf)
    /\ extract_parameters (columns example_dataset)
         [Str "L1"; Num (float_of_Z 500); Num (float_of_Z 14);
          Num (float_of_Z 75); Num (float_of_Z 25); Num (float_of_Z 600)]
       = Ok {| p_loan_amount := Num la; p_interest := Num i;
               p_late_fee := Num lf; p_duration := Num d |}
    /\ calculator_of {| p_loan_amount := Num la; p_interest := Num i;
                        p_late_fee := Num lf; p_duration := Num d |}
       = Some {| loan_amount := la; interest := i;
                 late_fee := lf; duration := d |}.
Proof.
  apply (loaded_late_fee_used_as_is has_text_label ascii_strip parse_digits exn_name
           example_workbook [] [] example_dataset).
  - vm_compute. reflexivity.
  - simpl. left. reflexivity.
Defined.

Lemma late_fee_defaults_to_zero_witness :
  (series_get (map Str required_columns) record_without_late_fee
              "Late Fee & Interest ($C)" = Ok NaN
   /\ extract_parameters (map Str required_columns) record_without_late_fee
      = Ok {| p_loan_amount := Num (float_of_Z 100);
              p_interest := Num (float_of_Z 5);
              p_late_fee := Num (float_of_Z 0);
              p_duration := Num (float_of_Z 30) |}
   /\ Num (late_fee {| loan_amount := float_of_Z 100;
                       interest := float_of_Z 5;
                       late_fee := float_of_Z 0;
                       duration := float_of_Z 30 |})
      = Num (of_int 0))
  /\ (exists x p c,
         series_get (columns example_dataset)
                    [Str "L1"; Num (float_of_Z 500); Num (float_of_Z 14);
                     Num (float_of_Z 75); Num (float_of_Z 25);
                     Num (float_of_Z 600)]
                    "Late Fee & Interest ($C)" = Ok x
         /\ extract_parameters (columns example_dataset)
              [Str "L1"; Num (float_of_Z 500); Num (float_of_Z 14);
               Num (float_of_Z 75); Num (float_of_Z 25); Num (float_of_Z 600)]
            = Ok p
         /\ calculator_of p = Some c
         /\ Num (late_fee c)
            = match x with NaN => Num (of_int 0) | _ => x end).
Proof.
  destruct (late_fee_defaults_to_zero (num := float) has_text_label ascii_strip
              parse_digits exn_name) as [Hany Hloaded].
  split.
  - assert (Hx : series_get (map Str required_columns) record_without_late_fee
                            "Late Fee & Interest ($C)" = Ok NaN)
      by (vm_compute; reflexivity).
    assert (Hp : extract_parameters (map Str required_columns)
                                    record_without_late_fee
                 = Ok {| p_loan_amount := Num (float_of_Z 100);
                         p_interest := Num (float_of_Z 5);
                         p_late_fee := Num (float_of_Z 0);
                         p_duration := Num (float_of_Z 30) |})
      by (vm_compute; reflexivity).
    split; [exact Hx|]. split; [exact Hp|].
    apply (proj2 (Hany _ _ _ _ Hx Hp)). vm_compute. reflexivity.
  - apply (Hloaded example_workbook [] [] example_dataset).
    + vm_compute. reflexivity.
    + simpl. left. reflexivity.
Defined.

(** A source row without a late fee does not reach the default: in
    [example_workbook] the row L2 has no value under
    "Late Fee & Interest ($C)" and is otherwise complete; the load succeeds,
    the row is not in the dataset, and selecting it finds no row. *)
Lemma record_without_late_fee_is_dropped :
  exists out,
    load_example example_workbook [] = (Ok (Some out), [])
    /\ select_loan (Str "L2") out = Raise IndexError
    /\ forall params,
         ~ (exists row, select_loan (Str "L2") out = Ok row
                        /\ extract_parameters (columns out) row = Ok params
                        /\ p_late_fee params = Num (of_int 0)).
Proof.
  exists example_dataset.
  split; [vm_compute; reflexivity|].
  assert (E : select_loan (Str "L2") example_dataset = Raise IndexError)
    by (vm_compute; reflexivity).
  split; [exact E|].
  intros params (row & Hrow & _). rewrite E in Hrow. discriminate Hrow.
Qed.

(** * Further properties of the code *)

(** ** The calculator on exact rationals *)

Lemma Qc_eqb_zero (x : Qc) : num_eqb x (of_int 0) = true <-> x = 0%Qc.
Proof.
  split.
  - intros E. cbn in E. apply Qeq_bool_iff in E. apply Qc_is_canon. exact E.
  - intros ->. reflexivity.
Qed.

Lemma Qc_eqb_nonzero (x : Qc) : num_eqb x (of_int 0) = false <-> x <> 0%Qc.
Proof.
  rewrite <- Qc_eqb_zero. destruct (num_eqb x (of_int 0)); split; congruence.
Qed.

Lemma Ok_inj {A : Type} (a b : A) : Ok a = Ok b -> a = b.
Proof. intros E. injection E as E. exact E. Qed.

(** The value [calculate_apr] returns, on any number type. *)
Lemma calculate_apr_value {T : Type} `{PyNumber T} (self : LoanCalculator T) :
  calculate_apr self =
  Ok (if num_eqb (loan_amount self) (of_int 0) || num_eqb (duration self) (of_int 0)
      then of_int 0
      else num_mul
             (num_div (num_mul (num_div (interest self) (loan_amount self))
                               (of_int 365))
                      (duration self))
             (of_int 100)).
Proof.
  unfold calculate_apr.
  destruct (num_eqb (loan_amount self) (of_int 0)) eqn:Ela; [reflexivity|].
  destruct (num_eqb (duration self) (of_int 0)) eqn:Ed; [reflexivity|].
  cbn [orb]. rewrite (truediv_nonzero _ _ Ela). cbn [rbind].
  rewrite (truediv_nonzero _ _ Ed). reflexivity.
Qed.

Lemma Qc_365_nonzero : of_int (T := Qc) 365 <> 0%Qc.
Proof. apply Qc_eqb_nonzero. reflexivity. Qed.

Lemma Qc_100_nonzero : of_int (T := Qc) 100 <> 0%Qc.
Proof. apply Qc_eqb_nonzero. reflexivity. Qed.

Lemma Qc_30_nonzero : of_int (T := Qc) 30 <> 0%Qc.
Proof. apply Qc_eqb_nonzero. reflexivity. Qed.

(** X1: on exact rationals [calculate_apr] returns 0 exactly when the loan
    amount, the duration or the interest is 0. *)
Theorem apr_zero_iff_exact (self : LoanCalculator Qc) :
  calculate_apr self = Ok (of_int 0)
  <-> loan_amount self = 0%Qc \/ duration self = 0%Qc \/ interest self = 0%Qc.
Proof.
  rewrite calculate_apr_value.
  destruct (num_eqb (loan_amount self) (of_int 0)) eqn:Ela.
  { cbn [orb]. apply Qc_eqb_zero in Ela. split; [auto | reflexivity]. }
  destruct (num_eqb (duration self) (of_int 0)) eqn:Ed.
  { cbn [orb]. apply Qc_eqb_zero in Ed. split; [auto | reflexivity]. }
  cbn [orb]. apply Qc_eqb_nonzero in Ela, Ed.
  cbn [num_mul num_div Qc_number].
  pose proof Qc_365_nonzero as H365. pose proof Qc_100_nonzero as H100.
  change (of_int (T := Qc) 0) with 0%Qc.
  generalize dependent (of_int (T := Qc) 365). intros c365 H365.
  generalize dependent (of_int (T := Qc) 100). intros c100 H100.
  split.
  - intros E. apply Ok_inj in E. right. right.
    apply Qcmult_integral in E. destruct E as [E | E]; [|contradiction].
    unfold Qcdiv in E.
    apply Qcmult_integral in E. destruct E as [E | E].
    + apply Qcmult_integral in E. destruct E as [E | E]; [|contradiction].
      apply Qcmult_integral in E. destruct E as [E | E]; [exact E|].
      exfalso. apply Ela.
      rewrite <- (Qcmult_1_l (loan_amount self)),
              <- (Qcmult_inv_l (loan_amount self) Ela) at 1.
      rewrite E. ring.
    + exfalso. apply Ed.
      rewrite <- (Qcmult_1_l (duration self)),
              <- (Qcmult_inv_l (duration self) Ed) at 1.
      rewrite E. ring.
  - intros [E | [E | E]]; [contradiction | contradiction |].
    rewrite E. f_equal. field. auto.
Qed.

(** X2: on exact rationals [calculate_monthly_payment] is the total repayment
    for a duration below 30 days (also a negative one) and the total
    repayment times 30 / duration from 30 days on. *)
Theorem monthly_payment_piecewise_exact (self : LoanCalculator Qc) :
  calculate_monthly_payment self =
  Ok (if Qle_bool (of_int (T := Qc) 30) (duration self)
      then num_div (num_mul (total_repayment self) (of_int 30)) (duration self)
      else total_repayment self).
Proof.
  rewrite monthly_payment_returns. f_equal.
  unfold py_max. cbn [num_gtb num_div num_mul Qc_number].
  pose proof Qc_30_nonzero as H30.
  assert (P30 : (0 < of_int (T := Qc) 30)%Qc) by reflexivity.
  assert (E1 : of_int (T := Qc) 1 = 1%Qc) by reflexivity. rewrite E1.
  generalize dependent (of_int (T := Qc) 30). intros c30 H30 P30.
  set (d := duration self). set (t := total_repayment self).
  match goal with
  | |- context [negb (Qle_bool ?a ?b)] => destruct (Qle_bool a b) eqn:L1
  end; cbn [negb]; destruct (Qle_bool c30 d) eqn:L2.
  - apply Qle_bool_iff in L2.
    assert (Hd : d <> 0%Qc).
    { intros E. rewrite E in L2. apply (Qclt_not_le _ _ P30). exact L2. }
    field. auto.
  - exfalso. apply Qle_bool_iff in L1.
    assert (L : (c30 <= d)%Qc).
    { replace c30 with (1 * c30)%Qc by ring.
      replace d with (d / c30 * c30)%Qc by (field; auto).
      apply Qcmult_le_compat_r; [exact L1 | apply Qclt_le_weak, P30]. }
    apply Qle_bool_iff in L. congruence.
  - exfalso. apply Qle_bool_iff in L2.
    assert (L : (1 <= d / c30)%Qc).
    { apply (Qcmult_lt_0_le_reg_r _ _ c30 P30).
      replace (1 * c30)%Qc with c30 by ring.
      replace (d / c30 * c30)%Qc with d by (field; auto). exact L2. }
    apply Qle_bool_iff in L. congruence.
  - field. discriminate.
Qed.

(** ** The session state *)

Section SessionProperties.
Context {T : Type} `{PyNumber T}.

(** X3: [init_session_state] keeps a value that is already stored, stores
    1000 and 5 where there is none, touches no other key, and running it
    again changes nothing. *)
Theorem init_session_state_defaults (st : gmap string T) :
  init_session_state st !! "initial_investment"
  = Some (default (of_int 1000) (st !! "initial_investment"))
  /\ init_session_state st !! "roi_percentage"
     = Some (default (of_int 5) (st !! "roi_percentage"))
  /\ (forall key, key <> "initial_investment" -> key <> "roi_percentage" ->
                  init_session_state st !! key = st !! key)
  /\ init_session_state (init_session_state st) = init_session_state st.
Proof.
  assert (Hi : init_session_state st !! "initial_investment"
               = Some (default (of_int 1000) (st !! "initial_investment"))).
  { unfold init_session_state.
    destruct (st !! "initial_investment") as [v|] eqn:Ei.
    - destruct (st !! "roi_percentage");
        rewrite ?lookup_insert_ne by discriminate; exact Ei.
    - rewrite lookup_insert_ne by discriminate.
      destruct (st !! "roi_percentage");
        rewrite ?lookup_insert_ne by discriminate; apply lookup_insert_eq. }
  assert (Hr : init_session_state st !! "roi_percentage"
               = Some (default (of_int 5) (st !! "roi_percentage"))).
  { unfold init_session_state.
    destruct (st !! "initial_investment") as [v|] eqn:Ei.
    - destruct (st !! "roi_percentage") as [r|] eqn:Er;
        [exact Er | apply lookup_insert_eq].
    - rewrite lookup_insert_ne by discriminate.
      destruct (st !! "roi_percentage") as [r|] eqn:Er.
      + rewrite lookup_insert_ne by discriminate. exact Er.
      + apply lookup_insert_eq. }
  split; [exact Hi|]. split; [exact Hr|]. split.
  - intros key Hki Hkr. unfold init_session_state.
    destruct (st !! "initial_investment");
      rewrite ?lookup_insert_ne by discriminate;
      destruct (st !! "roi_percentage");
      rewrite ?lookup_insert_ne by congruence; reflexivity.
  - unfold init_session_state at 1. rewrite Hi.
    rewrite Hr. reflexivity.
Qed.

(** X4: in a state without [investment_amount] the initialisation does not
    create the key and every edit of either input raises [KeyError]. *)
Theorem edits_raise_without_amount (st : gmap string T) (e : edit) :
  st !! "investment_amount" = None ->
  init_session_state st !! "investment_amount" = None
  /\ on_edit e (init_session_state st) = Raise (KeyError "investment_amount").
Proof.
  intros Ha.
  assert (Hi : init_session_state st !! "investment_amount" = None)
    by (rewrite init_session_state_amount; exact Ha).
  split; [exact Hi | apply on_edit_without_amount, Hi].
Qed.

(** X5: with [investment_amount] equal to zero the two callbacks differ:
    [update_roi] raises [ZeroDivisionError], [update_investment] succeeds. *)
Theorem zero_amount_asymmetry (st : gmap string T) (a v r : T) :
  st !! "investment_amount" = Some a ->
  num_eqb a (of_int 0) = true ->
  st !! "initial_investment" = Some v ->
  st !! "roi_percentage" = Some r ->
  update_roi st = Raise ZeroDivisionError
  /\ update_investment st
     = Ok (<["initial_investment" := num_mul (num_div r (of_int 100)) a]> st).
Proof.
  intros Ha Hz Hv Hr. split.
  - unfold update_roi, session_get. rewrite Hv, Ha. cbn [rbind].
    unfold truediv. rewrite Hz. reflexivity.
  - apply update_investment_with_amount; assumption.
Qed.

(** X6: when [investment_amount] holds a nonzero value, an edit succeeds: the
    edited field holds the new value, the other field is recomputed from it
    by the formula of its callback, and every other key is left alone. *)
Theorem edit_with_amount (st : gmap string T) (a x : T) :
  st !! "investment_amount" = Some a ->
  num_eqb a (of_int 0) = false ->
  (exists st',
      on_edit (EditRoiPercentage x) st = Ok st'
      /\ st' !! "roi_percentage" = Some x
      /\ st' !! "initial_investment"
         = Some (num_mul (num_div x (of_int 100)) a)
      /\ forall key, key <> "initial_investment" -> key <> "roi_percentage" ->
                     st' !! key = st !! key)
  /\ (exists st',
      on_edit (EditInitialInvestment x) st = Ok st'
      /\ st' !! "initial_investment" = Some x
      /\ st' !! "roi_percentage"
         = Some (num_mul (num_div x a) (of_int 100))
      /\ forall key, key <> "initial_investment" -> key <> "roi_percentage" ->
                     st' !! key = st !! key).
Proof.
  intros Ha Hnz. split.
  - eexists. split.
    + cbn [on_edit]. apply update_investment_with_amount.
      * apply lookup_insert_eq.
      * rewrite lookup_insert_ne by discriminate. exact Ha.
    + split; [rewrite lookup_insert_ne by discriminate; apply lookup_insert_eq|].
      split; [apply lookup_insert_eq|].
      intros key Hi Hr. rewrite !lookup_insert_ne by congruence. reflexivity.
  - eexists. split.
    + cbn [on_edit]. apply update_roi_with_amount with (a := a).
      * apply lookup_insert_eq.
      * rewrite lookup_insert_ne by discriminate. exact Ha.
      * exact Hnz.
    + split; [rewrite lookup_insert_ne by discriminate; apply lookup_insert_eq|].
      split; [apply lookup_insert_eq|].
      intros key Hi Hr. rewrite !lookup_insert_ne by congruence. reflexivity.
Qed.
End SessionProperties.

Lemma edits_raise_without_amount_witness :
  init_session_state (T := float) ∅ !! "investment_amount" = None
  /\ on_edit (EditInitialInvestment (of_int 750))
             (init_session_state (T := float) ∅)
     = Raise (KeyError "investment_amount").
Proof.
  apply (edits_raise_without_amount (T := float) ∅
           (EditInitialInvestment (of_int 750))).
  vm_compute. reflexivity.
Defined.

Lemma zero_amount_asymmetry_witness :
  update_roi zero_amount_session = Raise ZeroDivisionError
  /\ update_investment zero_amount_session
     = Ok (<["initial_investment" :=
               num_mul (num_div (of_int 5) (of_int 100)) (of_int 0)]>
             zero_amount_session).
Proof.
  apply (zero_amount_asymmetry zero_amount_session
           (of_int 0) (of_int 1000) (of_int 5)); vm_compute; reflexivity.
Defined.

Lemma edit_with_amount_witness :
  exists st',
    on_edit (EditRoiPercentage (of_int 10)) float_session = Ok st'
    /\ st' !! "roi_percentage" = Some (of_int 10)
    /\ st' !! "initial_investment"
       = Some (num_mul (num_div (of_int 10) (of_int 100)) (of_int 3))
    /\ forall key, key <> "initial_investment" -> key <> "roi_percentage" ->
                   st' !! key = float_session !! key.
Proof.
  refine (proj1 (edit_with_amount float_session (of_int 3) (of_int 10) _ _));
    vm_compute; reflexivity.
Defined.

(** X7: on exact rationals, after any successful edit the two fields agree
    (initial_investment = roi_percentage / 100 * investment_amount): running
    either callback again leaves the state as it is. *)
Theorem edit_reaches_fixed_point (st st' : gmap string Qc) (a : Qc) (e : edit) :
  st !! "investment_amount" = Some a ->
  num_eqb a (of_int 0) = false ->
  on_edit e st = Ok st' ->
  update_investment st' = Ok st' /\ update_roi st' = Ok st'.
Proof.
  intros Ha Hnz Hedit.
  pose proof (Qc_nonzero _ Hnz) as Hne.
  pose proof Qc_100_nonzero as Hh.
  destruct e as [x | x]; cbn [on_edit] in Hedit.
  - rewrite (update_roi_with_amount _ x a) in Hedit;
      [| apply lookup_insert_eq
       | rewrite lookup_insert_ne by discriminate; exact Ha
       | exact Hnz].
    apply Ok_inj in Hedit. subst st'.
    set (r := num_mul (num_div x a) (of_int 100)).
    split.
    + rewrite (update_investment_with_amount _ r a);
        [| apply lookup_insert_eq
         | rewrite !lookup_insert_ne by discriminate; exact Ha].
      f_equal. apply insert_id.
      rewrite lookup_insert_ne by discriminate. rewrite lookup_insert_eq.
      f_equal. subst r. cbn [num_mul num_div Qc_number].
      generalize dependent (of_int (T := Qc) 100). intros h Hh. field. auto.
    + rewrite (update_roi_with_amount _ x a);
        [| rewrite lookup_insert_ne by discriminate; apply lookup_insert_eq
         | rewrite !lookup_insert_ne by discriminate; exact Ha
         | exact Hnz].
      f_equal. apply insert_id. apply lookup_insert_eq.
  - rewrite (update_investment_with_amount _ x a) in Hedit;
      [| apply lookup_insert_eq
       | rewrite lookup_insert_ne by discriminate; exact Ha].
    apply Ok_inj in Hedit. subst st'.
    set (v := num_mul (num_div x (of_int 100)) a).
    split.
    + rewrite (update_investment_with_amount _ x a);
        [| rewrite lookup_insert_ne by discriminate; apply lookup_insert_eq
         | rewrite !lookup_insert_ne by discriminate; exact Ha].
      f_equal. apply insert_id. apply lookup_insert_eq.
    + rewrite (update_roi_with_amount _ v a);
        [| apply lookup_insert_eq
         | rewrite !lookup_insert_ne by discriminate; exact Ha
         | exact Hnz].
      f_equal. apply insert_id.
      rewrite lookup_insert_ne by discriminate. rewrite lookup_insert_eq.
      f_equal. subst v. cbn [num_mul num_div Qc_number].
      generalize dependent (of_int (T := Qc) 100). intros h Hh. field. auto.
Qed.

Lemma edit_reaches_fixed_point_witness :
  update_investment edited_exact_session = Ok edited_exact_session
  /\ update_roi edited_exact_session = Ok edited_exact_session.
Proof.
  refine (edit_reaches_fixed_point exact_session edited_exact_session
            (of_int 3) (EditRoiPercentage (of_int 10)) _ _ _).
  - vm_compute. reflexivity.
  - vm_compute. reflexivity.
  - unfold edited_exact_session. cbn [on_edit].
    apply update_investment_with_amount.
    + apply lookup_insert_eq.
    + vm_compute. reflexivity.
Defined.

(** ** The loader: which loads succeed *)

Section LoaderCompleteness.
Context {num : Type}.
Variable str_accessor : list (cell num) -> bool.
Variable strip : string -> string.
Variable parse_numeric : string -> option num.
Variable exn_str : exn -> string.

Abbreviation loader := (load_loan_data str_accessor strip parse_numeric exn_str).

Lemma has_label_positions (col : string) (labels : list (cell num)) :
  existsb (label_is col) labels = true <-> positions col labels <> [].
Proof.
  rewrite existsb_exists. split.
  - intros (c & Hc & E) Hnil.
    apply list_elem_of_In, list_elem_of_lookup in Hc. destruct Hc as [j Hj].
    assert (Hin : In j (positions col labels)).
    { apply positions_In. unfold at_position. rewrite Hj. exact E. }
    rewrite Hnil in Hin. destruct Hin.
  - intros Hne. destruct (positions col labels) as [|j l] eqn:P; [congruence|].
    assert (Hin : In j (positions col labels)) by (rewrite P; left; reflexivity).
    apply positions_In in Hin. unfold at_position in Hin.
    destruct (labels !! j) as [c|] eqn:Hj; [|discriminate].
    exists c. split; [|exact Hin].
    apply list_elem_of_In. eapply list_elem_of_lookup_2. exact Hj.
Qed.

Lemma indexer_present (cols : list string) (labels : list (cell num)) :
  (forall col, In col cols -> existsb (label_is col) labels = true) ->
  indexer cols labels = Ok (flat_map (fun col => positions col labels) cols).
Proof.
  intros Hall. unfold indexer.
  destruct (find _ cols) as [col|] eqn:F; [|reflexivity].
  apply find_some in F. destruct F as [Hin Hneg].
  rewrite (Hall col Hin) in Hneg. discriminate.
Qed.

(** The loop of line 30 on labels that all occur: it succeeds when each
    occurs once and raises [TypeError] otherwise. *)
Lemma to_numeric_columns_cases (cols : list string) (df : DataFrame num) :
  (forall col, In col cols -> positions col (columns df) <> []) ->
  (exists ks,
      Forall2 (fun col k => positions col (columns df) = [k]) cols ks
      /\ to_numeric_columns parse_numeric cols df
         = Ok {| columns := columns df;
                 rows := map (coerce_at parse_numeric ks) (rows df) |})
  \/ (to_numeric_columns parse_numeric cols df = Raise TypeError
      /\ exists col j j' l, In col cols
                            /\ positions col (columns df) = j :: j' :: l).
Proof.
  revert df. induction cols as [|col cols IH]; intros df Hall.
  - left. exists []. split; [constructor|]. cbn.
    rewrite map_id. destruct df; reflexivity.
  - cbn [to_numeric_columns]. unfold to_numeric_column.
    destruct (positions col (columns df)) as [|j [|j' l]] eqn:P.
    + exfalso. apply (Hall col); [left; reflexivity | exact P].
    + cbn [rbind].
      set (df1 := {| columns := columns df;
                     rows := map (alter (to_numeric parse_numeric) j) (rows df) |}).
      destruct (IH df1) as [(ks & Hks & Hok) | (Hraise & col' & a & b & l' & Hin & Hp)].
      * intros c Hc. apply Hall. right. exact Hc.
      * left. exists (j :: ks). split; [constructor; assumption|].
        rewrite Hok. cbn [columns rows df1]. rewrite map_map. reflexivity.
      * right. split; [exact Hraise|].
        exists col', a, b, l'. split; [right; exact Hin | exact Hp].
    + right. split; [reflexivity|].
      exists col, j, j', l. split; [left; reflexivity | exact P].
Qed.

Lemma singletons_Forall2 (cols : list string) (labels : list (cell num)) :
  Forall (fun col => exists j, positions col labels = [j]) cols ->
  exists ks, Forall2 (fun col k => positions col labels = [k]) cols ks.
Proof.
  induction 1 as [|col cols [j Hj] _ [ks IH]].
  - exists []. constructor.
  - exists (j :: ks). constructor; assumption.
Qed.

(** Lines 30 to 36 succeed on a frame in which every required label occurs
    and every numeric one occurs once; the result is the one the
    specification describes. *)
Lemma coerce_and_select_complete (df : DataFrame num) :
  forallb (fun col => has_column col df) required_columns = true ->
  Forall (fun col => exists j, positions col (columns df) = [j]) numeric_columns ->
  coerce_and_select parse_numeric df
  = Ok {| columns :=
            flat_map (fun col => map (fun _ => Str col)
                                     (positions col (columns df)))
                     required_columns;
          rows := map (record_of parse_numeric (columns df))
                      (List.filter (valid_record parse_numeric (columns df))
                                   (rows df)) |}.
Proof.
  intros Hreq Hnum. rewrite forallb_forall in Hreq.
  destruct (singletons_Forall2 _ _ Hnum) as [ks Hks].
  unfold coerce_and_select.
  destruct (to_numeric_columns_cases numeric_columns df)
    as [(ks' & Hks' & Hok) | (_ & col & j & j' & l & Hin & Hp)].
  - intros col Hcol. rewrite List.Forall_forall in Hnum.
    destruct (Hnum col Hcol) as [j Hj]. rewrite Hj. discriminate.
  - rewrite Hok. cbn [rbind]. unfold dropna, getitem_columns.
    cbn [columns rows].
    rewrite (indexer_present required_columns (columns df) Hreq).
    cbn [rbind columns rows].
    rewrite (indexer_present required_columns (columns df) Hreq).
    cbn [rbind]. f_equal. f_equal.
    + rewrite map_flat_map. apply flat_map_ext_In. intros col _.
      apply map_ext_in. intros j Hj.
      apply label_is_Str, positions_In, Hj.
    + rewrite List.filter_map_swap, map_map.
      erewrite List.filter_ext;
        [apply map_ext; intros r; apply project_coerced, Hks'|].
      intros r. unfold valid_record.
      rewrite <- (project_coerced parse_numeric (columns df) ks' r Hks'),
              forallb_of_map.
      reflexivity.
  - exfalso. rewrite List.Forall_forall in Hnum.
    destruct (Hnum col Hin) as [k Hk]. congruence.
Qed.

(** The dataset a load returns when every check passes. *)
Lemma load_returns (sheets : gmap string (list (list (cell num))))
      (raw df : DataFrame num) (log : list string) :
  parse sheets "Loan Data" = Ok raw ->
  clean_header str_accessor strip raw = Ok df ->
  forallb (fun col => has_column col df) required_columns = true ->
  Forall (fun col => exists j, positions col (columns df) = [j])
         numeric_columns ->
  loader (Workbook sheets) log
  = (Ok (Some {| columns :=
                   flat_map (fun col => map (fun _ => Str col)
                                            (positions col (columns df)))
                            required_columns;
                 rows := map (record_of parse_numeric (columns df))
                             (List.filter
                                (valid_record parse_numeric (columns df))
                                (rows df)) |}),
     log).
Proof.
  intros Hparse Hclean Hreq Hnum.
  unfold load_loan_data, try_except, load_body, io_bind, lift; cbn [ExcelFile].
  rewrite (parse_is_Some _ _ Hparse). cbn [negb].
  rewrite Hparse, Hclean, Hreq. cbn [negb].
  rewrite (coerce_and_select_complete df Hreq Hnum). reflexivity.
Qed.

(** X8: a workbook with a "Loan Data" sheet loads successfully exactly when
    the header promotion and stripping of lines 19 to 21 succeed, every
    required label occurs in the stripped header and each of the five numeric
    labels occurs exactly once; nothing is reported then. *)
Theorem load_succeeds_iff
        (sheets : gmap string (list (list (cell num)))) (log : list string) :
  (exists out, loader (Workbook sheets) log = (Ok (Some out), log))
  <-> exists raw df,
      parse sheets "Loan Data" = Ok raw
      /\ clean_header str_accessor strip raw = Ok df
      /\ forallb (fun col => has_column col df) required_columns = true
      /\ Forall (fun col => exists j, positions col (columns df) = [j])
                numeric_columns.
Proof.
  split.
  - intros [out Hload].
    destruct (load_success_steps _ _ _ _ _ _ _ _ Hload)
      as (sheets' & raw & df & Hfile & Hparse & Hclean & Hreq & Hsel & _).
    injection Hfile as <-.
    exists raw, df. repeat split; try assumption.
    apply (coerce_and_select_spec _ _ _ Hsel).
  - intros (raw & df & Hparse & Hclean & Hreq & Hnum).
    eexists.
    unfold load_loan_data, try_except, load_body, io_bind, lift; cbn [ExcelFile].
    rewrite (parse_is_Some _ _ Hparse). cbn [negb].
    rewrite Hparse, Hclean, Hreq. cbn [negb].
    rewrite (coerce_and_select_complete df Hreq Hnum). reflexivity.
Qed.

(** X9: a "Loan Data" sheet with fewer than two rows (nothing below the
    spreadsheet's own header) is not reported as lacking columns: line 19
    raises [IndexError], and the message is the catch-all one. *)
Theorem short_sheet_reported_as_load_error
        (sheets : gmap string (list (list (cell num))))
        (sheet : list (list (cell num))) (log : list string) :
  sheets !! "Loan Data" = Some sheet ->
  (length sheet <= 1)%nat ->
  loader (Workbook sheets) log
  = (Ok None, (log ++ [("Error loading data: " ++ exn_str IndexError)%string])%list).
Proof.
  intros Hsheet Hlen.
  unfold load_loan_data, try_except, load_body, io_bind, lift; cbn [ExcelFile].
  rewrite bool_decide_eq_true_2 by (rewrite Hsheet; eauto). cbn [negb].
  unfold parse. rewrite Hsheet.
  destruct sheet as [|header [|r body]]; [reflexivity | reflexivity |].
  cbn in Hlen. lia.
Qed.

(** X10: when the stripped header has every required label but names one of
    the five numeric ones more than once, the load fails with the catch-all
    message for the [TypeError] of [pd.to_numeric]. *)
Theorem duplicate_numeric_label_reported
        (sheets : gmap string (list (list (cell num))))
        (raw df : DataFrame num) (col : string) (j j' : nat) (l : list nat)
        (log : list string) :
  parse sheets "Loan Data" = Ok raw ->
  clean_header str_accessor strip raw = Ok df ->
  forallb (fun col => has_column col df) required_columns = true ->
  In col numeric_columns ->
  positions col (columns df) = j :: j' :: l ->
  loader (Workbook sheets) log
  = (Ok None, (log ++ [("Error loading data: " ++ exn_str TypeError)%string])%list).
Proof.
  intros Hparse Hclean Hreq Hin Hdup.
  unfold load_loan_data, try_except, load_body, io_bind, lift; cbn [ExcelFile].
  rewrite (parse_is_Some _ _ Hparse). cbn [negb].
  rewrite Hparse, Hclean, Hreq. cbn [negb].
  unfold coerce_and_select.
  destruct (to_numeric_columns_cases numeric_columns df)
    as [(ks & Hks & _) | (Hraise & _)].
  - intros c Hc. apply has_label_positions.
    rewrite forallb_forall in Hreq. apply Hreq.
    cbn in Hc |- *. tauto.
  - exfalso. destruct (Forall2_In_l _ _ _ _ Hks Hin) as (k & _ & Hk).
    congruence.
  - rewrite Hraise. reflexivity.
Qed.

(** X11: once the required-columns check of line 25 has passed, the column
    look-ups of lines 31, 34 and 36 cannot raise [KeyError]: lines 30 to 36
    either return a dataset or raise the [TypeError] of a repeated numeric
    label. *)
Theorem column_lookups_are_safe (df : DataFrame num) :
  forallb (fun col => has_column col df) required_columns = true ->
  (exists out, coerce_and_select parse_numeric df = Ok out)
  \/ (coerce_and_select parse_numeric df = Raise TypeError
      /\ exists col j j' l, In col numeric_columns
                            /\ positions col (columns df) = j :: j' :: l).
Proof.
  clear str_accessor strip exn_str.
  intros Hreq.
  destruct (to_numeric_columns_cases numeric_columns df)
    as [(ks & Hks & Hok) | (Hraise & Hdup)].
  - intros c Hc. apply has_label_positions.
    rewrite forallb_forall in Hreq. apply Hreq.
    cbn in Hc |- *. tauto.
  - left. eexists. apply coerce_and_select_complete; [exact Hreq|].
    apply List.Forall_forall. intros col Hcol.
    destruct (Forall2_In_l _ _ _ _ Hks Hcol) as (k & _ & Hk). eauto.
  - right. split; [|exact Hdup].
    unfold coerce_and_select. rewrite Hraise. reflexivity.
Qed.
End LoaderCompleteness.

Lemma short_sheet_reported_as_load_error_witness :
  load_example (Workbook header_only_sheets) []
  = (Ok None, [("Error loading data: " ++ exn_name IndexError)%string]).
Proof.
  apply (short_sheet_reported_as_load_error has_text_label ascii_strip
           parse_digits exn_name header_only_sheets
           [[Str "Loan ID"; Str "Duration"]] []).
  - vm_compute. reflexivity.
  - simpl. lia.
Defined.

Lemma duplicate_numeric_label_reported_witness :
  load_example (Workbook duplicate_duration_sheets) []
  = (Ok None, [("Error loading data: " ++ exn_name TypeError)%string]).
Proof.
  refine (duplicate_numeric_label_reported has_text_label ascii_strip
            parse_digits exn_name duplicate_duration_sheets
            {| columns := [Str "A"; Str "B"; Str "C"; Str "D"; Str "E";
                           Str "F"; Str "G"];
               rows := [ [Str "Loan ID"; Str "Loan Amount ($C)"; Str "Duration";
                          Str "Duration"; Str "Interest ($C)";
                          Str "Late Fee & Interest ($C)";
                          Str "Total Payment ($C)"];
                         [Str "L1"; Num (float_of_Z 500); Num (float_of_Z 14);
                          Num (float_of_Z 15); Num (float_of_Z 75);
                          Num (float_of_Z 25); Num (float_of_Z 600)] ] |}
            {| columns := [Str "Loan ID"; Str "Loan Amount ($C)"; Str "Duration";
                           Str "Duration"; Str "Interest ($C)";
                           Str "Late Fee & Interest ($C)";
                           Str "Total Payment ($C)"];
               rows := [ [Str "L1"; Num (float_of_Z 500); Num (float_of_Z 14);
                          Num (float_of_Z 15); Num (float_of_Z 75);
                          Num (float_of_Z 25); Num (float_of_Z 600)] ] |}
            "Duration" 2%nat 3%nat [] [] _ _ _ _ _).
  - vm_compute. reflexivity.
  - vm_compute. reflexivity.
  - vm_compute. reflexivity.
  - simpl. tauto.
  - vm_compute. reflexivity.
Defined.

Lemma column_lookups_are_safe_witness :
  (exists out, coerce_and_select parse_digits example_dataset = Ok out)
  \/ (coerce_and_select parse_digits example_dataset = Raise TypeError
      /\ exists col j j' l, In col numeric_columns
                            /\ positions col (columns example_dataset)
                               = j :: j' :: l).
Proof.
  apply (column_lookups_are_safe parse_digits example_dataset).
  vm_compute. reflexivity.
Defined.

(** ** The shape of a loaded dataset *)

Section LoadedShape.
Context {num : Type}.
Variable str_accessor : list (cell num) -> bool.
Variable strip : string -> string.
Variable parse_numeric : string -> option num.
Variable exn_str : exn -> string.

Lemma positions_all (col : string) (labels : list (cell num)) :
  (forall c, In c labels -> label_is col c = true) ->
  positions col labels = seq 0 (length labels).
Proof.
  intros Hall. unfold positions.
  rewrite <- (List.filter_true (seq 0 (length labels))) at 2.
  apply List.filter_ext_in. intros j Hj. apply List.in_seq in Hj.
  unfold at_position.
  destruct (labels !! j) as [c|] eqn:Hc.
  - cbn. apply Hall, list_elem_of_In. eapply list_elem_of_lookup_2. exact Hc.
  - apply lookup_ge_None in Hc. lia.
Qed.

Lemma project_prefix (p s : list (cell num)) :
  map (fun j => at_position j (p ++ s)) (seq 0 (length p)) = p.
Proof.
  induction p as [|c p IH]; [reflexivity|].
  cbn [length seq map]. f_equal.
  rewrite <- List.seq_shift, map_map. exact IH.
Qed.

Lemma map_fixed {A : Type} (f : A -> A) (l : list A) :
  (forall x, In x l -> f x = x) -> map f l = l.
Proof.
  intros E. rewrite <- (map_id l) at 2. apply map_ext_in. exact E.
Qed.

Lemma filter_all {A : Type} (f : A -> bool) (l : list A) :
  (forall x, In x l -> f x = true) -> List.filter f l = l.
Proof.
  intros E. rewrite <- (List.filter_true l) at 2.
  apply List.filter_ext_in. exact E.
Qed.

Lemma shaped_positions (n : nat) :
  positions "Loan ID" (shaped_labels (num := num) n) = seq 0 n
  /\ positions "Loan Amount ($C)" (shaped_labels (num := num) n) = [(n + 0)%nat]
  /\ positions "Duration" (shaped_labels (num := num) n) = [(n + 1)%nat]
  /\ positions "Interest ($C)" (shaped_labels (num := num) n) = [(n + 2)%nat]
  /\ positions "Late Fee & Interest ($C)" (shaped_labels (num := num) n) = [(n + 3)%nat]
  /\ positions "Total Payment ($C)" (shaped_labels (num := num) n) = [(n + 4)%nat].
Proof.
  unfold shaped_labels.
  assert (Hid : positions "Loan ID" (repeat (Str (num := num) "Loan ID") n)
                = seq 0 n).
  { rewrite positions_all, repeat_length; [reflexivity|].
    intros c Hc. apply repeat_spec in Hc. subst c. reflexivity. }
  assert (Hno : forall col, String.eqb "Loan ID" col = false ->
              positions col (repeat (Str (num := num) "Loan ID") n) = []).
  { intros col Hcol. apply positions_none.
    intros c Hc. apply repeat_spec in Hc. subst c. exact Hcol. }
  rewrite !positions_app, Hid, !Hno by reflexivity.
  rewrite repeat_length.
  repeat split; try reflexivity.
  apply app_nil_r.
Qed.

Lemma shaped_row_cells (n : nat) (ids : list (cell num)) (a d i l t : num) :
  length ids = n ->
  let row := (ids ++ [Num a; Num d; Num i; Num l; Num t])%list in
  at_position (n + 0) row = Num a /\ at_position (n + 1) row = Num d
  /\ at_position (n + 2) row = Num i /\ at_position (n + 3) row = Num l
  /\ at_position (n + 4) row = Num t.
Proof.
  intros Hlen row. subst row. unfold at_position.
  rewrite !lookup_app_r by lia.
  replace (n + 0 - length ids)%nat with 0%nat by lia.
  replace (n + 1 - length ids)%nat with 1%nat by lia.
  replace (n + 2 - length ids)%nat with 2%nat by lia.
  replace (n + 3 - length ids)%nat with 3%nat by lia.
  replace (n + 4 - length ids)%nat with 4%nat by lia.
  repeat split.
Qed.

(** On shaped labels the record of a shaped row is the row itself. *)
Lemma record_of_shaped (n : nat) (row : list (cell num)) :
  shaped_row n row ->
  record_of parse_numeric (shaped_labels n) row = row
  /\ valid_record parse_numeric (shaped_labels n) row = true.
Proof.
  intros (ids & a & d & i & l & t & -> & Hlen & Hids).
  assert (E : record_of parse_numeric (shaped_labels n)
                (ids ++ [Num a; Num d; Num i; Num l; Num t])
              = (ids ++ [Num a; Num d; Num i; Num l; Num t])%list).
  { unfold record_of. cbn [flat_map required_columns].
    destruct (shaped_positions n) as (-> & -> & -> & -> & -> & ->).
    change (is_numeric "Loan ID") with false.
    change (is_numeric "Loan Amount ($C)") with true.
    change (is_numeric "Duration") with true.
    change (is_numeric "Interest ($C)") with true.
    change (is_numeric "Late Fee & Interest ($C)") with true.
    change (is_numeric "Total Payment ($C)") with true.
    cbv iota. cbn [map app].
    destruct (shaped_row_cells n ids a d i l t Hlen)
      as (-> & -> & -> & -> & ->).
    rewrite <- Hlen, project_prefix. reflexivity. }
  split; [exact E|].
  unfold valid_record. rewrite E, forallb_app, Hids. reflexivity.
Qed.

(** What every successful load returns. *)
Lemma loaded_shape (file : upload num) (log log' : list string)
      (out : DataFrame num) :
  load_loan_data str_accessor strip parse_numeric exn_str file log
  = (Ok (Some out), log') ->
  exists n, (0 < n)%nat
            /\ columns out = shaped_labels n
            /\ Forall (shaped_row n) (rows out).
Proof.
  intros Hload.
  destruct (load_success_steps _ _ _ _ _ _ _ _ Hload)
    as (sheets & raw & df & _ & _ & _ & Hreq & Hsel & _).
  destruct (coerce_and_select_spec _ _ _ Hsel) as (Hnum & Hcols & Hrows).
  destruct (numeric_singletons _ Hnum)
    as (ja & ji & jl & jt & jd & Ea & Ei & El & Et & Ed).
  set (pid := positions "Loan ID" (columns df)) in *.
  exists (length pid). split; [|split].
  - rewrite forallb_forall in Hreq.
    assert (Hid : has_column "Loan ID" df = true)
      by (apply Hreq; left; reflexivity).
    apply has_label_positions in Hid. fold pid in Hid.
    destruct pid; [congruence | cbn; lia].
  - rewrite Hcols. cbn [flat_map required_columns].
    fold pid. rewrite Ea, Ei, El, Et, Ed. cbn [map app].
    rewrite map_const. reflexivity.
  - rewrite Hrows. apply List.Forall_forall. intros row Hrow.
    apply List.in_map_iff in Hrow. destruct Hrow as (src & <- & Hsrc).
    apply List.filter_In in Hsrc. destruct Hsrc as [_ Hvalid].
    unfold valid_record in Hvalid. revert Hvalid. unfold record_of.
    cbn [flat_map required_columns]. fold pid.
    rewrite Ea, Ei, El, Et, Ed. cbn [map app].
    change (is_numeric "Loan ID") with false.
    change (is_numeric "Loan Amount ($C)") with true.
    change (is_numeric "Duration") with true.
    change (is_numeric "Interest ($C)") with true.
    change (is_numeric "Late Fee & Interest ($C)") with true.
    change (is_numeric "Total Payment ($C)") with true.
    cbv iota. rewrite forallb_app. cbn [forallb].
    intros Hvalid. apply andb_prop in Hvalid. destruct Hvalid as [Hids Hvalid].
    repeat (apply andb_prop in Hvalid;
            let Hx := fresh "Hx" in destruct Hvalid as [Hx Hvalid];
            apply to_numeric_present in Hx).
    destruct Hx as [a Ha], Hx0 as [d Hd], Hx1 as [i Hi],
             Hx2 as [l Hl], Hx3 as [t Ht].
    rewrite Ha, Hd, Hi, Hl, Ht.
    eexists _, a, d, i, l, t. split; [reflexivity|].
    split; [apply length_map | exact Hids].
Qed.

(** X12: validating a loaded dataset again changes nothing: lines 30 to 36
    applied to the dataset a successful load returned give back that
    dataset. *)
Theorem revalidation_is_identity (file : upload num) (log log' : list string)
        (out : DataFrame num) :
  load_loan_data str_accessor strip parse_numeric exn_str file log
  = (Ok (Some out), log') ->
  coerce_and_select parse_numeric out = Ok out.
Proof.
  intros Hload.
  destruct (loaded_shape _ _ _ _ Hload) as (n & Hn & Hcols & Hrows).
  destruct out as [cols rws]. cbn [columns rows] in Hcols, Hrows. subst cols.
  destruct (shaped_positions n) as (Pid & Pa & Pd & Pi & Pl & Pt).
  rewrite coerce_and_select_complete; cbn [columns rows].
  - f_equal. f_equal.
    + cbn [flat_map required_columns].
      rewrite Pid, Pa, Pd, Pi, Pl, Pt. cbn [map app].
      rewrite map_const, length_seq. reflexivity.
    + rewrite List.Forall_forall in Hrows.
      rewrite filter_all
        by (intros r Hr; apply (record_of_shaped n r), Hrows, Hr).
      apply map_fixed. intros r Hr.
      apply (record_of_shaped n r), Hrows, Hr.
  - apply forallb_forall. intros col Hcol.
    unfold has_column. cbn [columns]. apply has_label_positions.
    cbn in Hcol.
    destruct Hcol as [<- | [<- | [<- | [<- | [<- | [<- | []]]]]]];
      rewrite ?Pid, ?Pa, ?Pd, ?Pi, ?Pl, ?Pt; try discriminate.
    destruct n; [lia | discriminate].
  - unfold numeric_columns.
    repeat constructor; eauto.
Qed.
End LoadedShape.

Lemma revalidation_is_identity_witness :
  coerce_and_select parse_digits example_dataset = Ok example_dataset.
Proof.
  apply (revalidation_is_identity has_text_label ascii_strip parse_digits
           exn_name example_workbook [] []).
  vm_compute. reflexivity.
Defined.

(** ** The script after a successful load *)

Section ScriptProperties.
Context {num : Type} `{PyNumber num}.
Variable str_accessor : list (cell num) -> bool.
Variable strip : string -> string.
Variable parse_numeric : string -> option num.
Variable exn_str : exn -> string.

(** The three metrics are always computed: no calculator makes lines 125 to
    127 raise. *)
Lemma compute_metrics_returns (c : LoanCalculator num) :
  exists m, compute_metrics c = Ok m
            /\ shown_total_repayment m = total_repayment c
            /\ calculate_apr c = Ok (shown_apr m)
            /\ calculate_monthly_payment c = Ok (shown_monthly_payment m).
Proof.
  unfold compute_metrics.
  rewrite calculate_apr_value, monthly_payment_returns. cbn [rbind].
  eexists. repeat split.
Qed.

Lemma filter_first {A : Type} (p : A -> bool) (l : list A) (x : A)
      (rest : list A) :
  List.filter p l = x :: rest ->
  exists before after,
    l = (before ++ x :: after)%list /\ p x = true
    /\ Forall (fun y => p y = false) before.
Proof.
  induction l as [|y l IH]; [discriminate|].
  cbn [List.filter]. destruct (p y) eqn:Py.
  - intros [= -> <-]. exists [], l. repeat split; [exact Py | constructor].
  - intros E. destruct (IH E) as (before & after & -> & Px & Hb).
    exists (y :: before), after. repeat split; [exact Px|].
    constructor; assumption.
Qed.

Lemma filter_none {A : Type} (p : A -> bool) (l : list A) :
  (forall x, In x l -> p x = false) -> List.filter p l = [].
Proof.
  intros E. rewrite <- (List.filter_false l). apply List.filter_ext_in. exact E.
Qed.

(** X13: [select_loan] returns the first row carrying the selected Loan ID:
    the rows before it do not match. *)
Theorem select_loan_first_match (selected_loan_id : cell num)
        (loan_data : DataFrame num) (row : list (cell num)) :
  select_loan selected_loan_id loan_data = Ok row ->
  exists j before after,
    positions "Loan ID" (columns loan_data) = [j]
    /\ rows loan_data = (before ++ row :: after)%list
    /\ cell_eqb (at_position j row) selected_loan_id = true
    /\ Forall (fun r => cell_eqb (at_position j r) selected_loan_id = false)
              before.
Proof.
  unfold select_loan.
  destruct (positions "Loan ID" (columns loan_data)) as [|j [|j' l]];
    try discriminate.
  destruct (List.filter _ (rows loan_data)) as [|r rest] eqn:F; [discriminate|].
  intros [= <-].
  destruct (filter_first _ _ _ _ F) as (before & after & Hrows & Hr & Hb).
  exists j, before, after. auto.
Qed.

Lemma unique_from_subset (seen values : list (cell num)) (c : cell num) :
  In c (unique_from seen values) -> In c values.
Proof.
  revert seen. induction values as [|v values IH]; intros seen; [intros []|].
  cbn [unique_from]. destruct (existsb (cell_eqb v) seen).
  - intros Hin. right. exact (IH _ Hin).
  - intros [<- | Hin]; [left; reflexivity | right; exact (IH _ Hin)].
Qed.

Lemma selectbox_In (options : list (cell num)) (choice : nat) (c : cell num) :
  selectbox options choice = Some c -> In c options.
Proof.
  unfold selectbox. destruct options as [|first rest]; [discriminate|].
  intros [= <-].
  destruct ((first :: rest) !! choice) as [x|] eqn:Hx.
  - apply list_elem_of_In. eapply list_elem_of_lookup_2. exact Hx.
  - left. reflexivity.
Qed.

(** X14: on a loaded dataset whose columns are not exactly the six required
    ones (the header named [Loan ID] more than once), the expression of line
    111, [loan_data['Loan ID'].unique()], raises [AttributeError]:
    [loan_data['Loan ID']] is then a DataFrame.  (The rendering of line 108,
    which is not modelled, comes before it in the script.) *)
Theorem repeated_loan_id_has_no_unique
        (file : upload num) (log log' : list string) (out : DataFrame num) :
  load_loan_data str_accessor strip parse_numeric exn_str file log
  = (Ok (Some out), log') ->
  columns out <> map Str required_columns ->
  loan_ids out = Raise AttributeError.
Proof.
  intros Hload Hlabels.
  destruct (loaded_shape _ _ _ _ _ _ _ _ Hload) as (n & Hn & Hcols & _).
  unfold loan_ids. rewrite Hcols.
  destruct (shaped_positions (num := num) n) as (-> & _).
  rewrite Hcols in Hlabels.
  destruct n as [|[|n]]; [lia | | reflexivity].
  exfalso. apply Hlabels. reflexivity.
Qed.

(** X15: a sheet that passes every check of the loader, whose stripped
    header names [Loan ID] exactly once, and that has no valid row loads
    without any message; lines 111 to 115 then raise [IndexError], whatever
    the selection: the select box has no option and no row matches. *)
Theorem no_valid_row_crashes_script
        (sheets : gmap string (list (list (cell num))))
        (raw df : DataFrame num) (j : nat) (log : list string) (choice : nat) :
  parse sheets "Loan Data" = Ok raw ->
  clean_header str_accessor strip raw = Ok df ->
  forallb (fun col => has_column col df) required_columns = true ->
  Forall (fun col => exists j, positions col (columns df) = [j])
         numeric_columns ->
  positions "Loan ID" (columns df) = [j] ->
  Forall (fun r => valid_record parse_numeric (columns df) r = false) (rows df) ->
  exists out,
    load_loan_data str_accessor strip parse_numeric exn_str (Workbook sheets) log
    = (Ok (Some out), log)
    /\ show_loan choice out = Raise IndexError.
Proof.
  intros Hparse Hclean Hreq Hnum Hid Hinvalid.
  eexists. split.
  - apply (load_returns _ _ _ _ _ _ _ _ Hparse Hclean Hreq Hnum).
  - destruct (numeric_singletons _ Hnum)
      as (ja & ji & jl & jt & jd & Ea & Ei & El & Et & Ed).
    unfold show_loan, loan_ids, select_loan. cbn [columns rows].
    cbn [flat_map required_columns]. rewrite Hid, Ea, Ei, El, Et, Ed.
    cbn [map app].
    match goal with
    | |- context [positions "Loan ID" ?l] =>
        change (positions "Loan ID" l) with [0%nat]
    end.
    rewrite List.Forall_forall in Hinvalid.
    rewrite filter_none by (intros r Hr; apply Hinvalid, Hr).
    reflexivity.
Qed.

(** X16: for a loaded dataset with the six required columns and at least one
    row, whose Loan IDs are equal to themselves, the script does not raise:
    whatever the selection, it shows the metrics of a record of the dataset,
    computed from that record's four numbers. *)
Theorem script_shows_metrics
        (file : upload num) (log log' : list string) (out : DataFrame num)
        (choice : nat) :
  load_loan_data str_accessor strip parse_numeric exn_str file log
  = (Ok (Some out), log') ->
  columns out = map Str required_columns ->
  rows out <> [] ->
  Forall (fun r => cell_eqb (at_position 0 r) (at_position 0 r) = true)
         (rows out) ->
  exists id a d i l t m,
    In [id; Num a; Num d; Num i; Num l; Num t] (rows out)
    /\ compute_metrics {| loan_amount := a; interest := i;
                          late_fee := l; duration := d |} = Ok m
    /\ show_loan choice out = Ok (Some m).
Proof.
  intros Hload Hlabels Hne Hrefl.
  destruct (loaded_shape _ _ _ _ _ _ _ _ Hload) as (n & Hn & Hcols & Hshape).
  assert (n = 1%nat).
  { rewrite Hcols in Hlabels. apply (f_equal (@length _)) in Hlabels.
    unfold shaped_labels in Hlabels.
    rewrite List.length_app, repeat_length in Hlabels. cbn in Hlabels. lia. }
  subst n.
  unfold show_loan, loan_ids, select_loan. rewrite Hcols.
  change (positions "Loan ID" (shaped_labels 1)) with [0%nat].
  cbn [rbind].
  set (ids := unique_from [] (map (at_position 0) (rows out))).
  destruct (selectbox ids choice) as [c|] eqn:Hsel.
  2:{ exfalso. unfold selectbox in Hsel.
      destruct ids as [|first rest] eqn:Hids; [|discriminate].
      subst ids. destruct (rows out) as [|r rs]; [congruence|].
      cbn in Hids. discriminate. }
  apply selectbox_In, unique_from_subset, List.in_map_iff in Hsel.
  destruct Hsel as (r0 & <- & Hr0).
  destruct (List.filter _ (rows out)) as [|row rest] eqn:F.
  { exfalso. rewrite List.Forall_forall in Hrefl.
    assert (Hin : In r0 (List.filter
                           (fun r => cell_eqb (at_position 0 r) (at_position 0 r0))
                           (rows out)))
      by (apply List.filter_In; split; [exact Hr0 | apply Hrefl, Hr0]).
    rewrite F in Hin. destruct Hin. }
  assert (Hrow : In row (rows out)).
  { assert (Hin : In row (row :: rest)) by (left; reflexivity).
    rewrite <- F in Hin. apply List.filter_In in Hin. apply Hin. }
  rewrite List.Forall_forall in Hshape.
  destruct (Hshape row Hrow) as (cells & a & d & i & l & t & -> & Hcells & _).
  destruct cells as [|id [|]]; try discriminate.
  cbn [rbind app].
  change (extract_parameters (shaped_labels 1)
            [id; Num a; Num d; Num i; Num l; Num t])
    with (Ok {| p_loan_amount := Num a; p_interest := Num i;
                p_late_fee := Num l; p_duration := Num d |}).
  cbn [rbind calculator_of p_loan_amount p_interest p_late_fee p_duration].
  destruct (compute_metrics_returns
              {| loan_amount := a; interest := i; late_fee := l; duration := d |})
    as (m & Hm & _).
  exists id, a, d, i, l, t, m.
  split; [exact Hrow|]. split; [exact Hm|].
  rewrite Hm. reflexivity.
Qed.

Lemma unique_from_fresh (seen values : list (cell num)) (c : cell num) :
  In c (unique_from seen values) -> existsb (cell_eqb c) seen = false.
Proof.
  revert seen. induction values as [|v values IH]; intros seen; [intros []|].
  cbn [unique_from]. destruct (existsb (cell_eqb v) seen) eqn:E.
  - apply IH.
  - intros [<- | Hin]; [exact E|].
    apply IH in Hin. cbn [existsb] in Hin.
    apply orb_false_elim in Hin. apply Hin.
Qed.

Lemma unique_from_distinct (seen values : list (cell num)) (i k : nat)
      (c c' : cell num) :
  (i < k)%nat ->
  unique_from seen values !! i = Some c ->
  unique_from seen values !! k = Some c' ->
  cell_eqb c' c = false.
Proof.
  revert seen i k. induction values as [|v values IH]; intros seen i k Hik;
    [discriminate|].
  cbn [unique_from]. destruct (existsb (cell_eqb v) seen); [apply IH, Hik|].
  destruct i as [|i]; destruct k as [|k]; try lia.
  - cbn. intros [= <-] Hk.
    assert (Hin : In c' (unique_from (v :: seen) values))
      by (apply list_elem_of_In; eapply list_elem_of_lookup_2; exact Hk).
    apply unique_from_fresh in Hin. cbn [existsb] in Hin.
    apply orb_false_elim in Hin. apply Hin.
  - cbn. apply IH. lia.
Qed.

(** X17: the options of the select box are Loan IDs of the dataset, each
    listed once: no option equals an earlier one. *)
Theorem loan_ids_distinct (loan_data : DataFrame num) (ids : list (cell num)) :
  loan_ids loan_data = Ok ids ->
  (forall c, In c ids ->
             exists j r, positions "Loan ID" (columns loan_data) = [j]
                         /\ In r (rows loan_data) /\ c = at_position j r)
  /\ (forall i k c c', (i < k)%nat -> ids !! i = Some c -> ids !! k = Some c' ->
                       cell_eqb c' c = false).
Proof.
  unfold loan_ids.
  destruct (positions "Loan ID" (columns loan_data)) as [|j [|j' l]];
    try discriminate.
  intros [= <-]. split.
  - intros c Hc. apply unique_from_subset, List.in_map_iff in Hc.
    destruct Hc as (r & <- & Hr). exists j, r. auto.
  - intros i k c c'. apply unique_from_distinct.
Qed.
End ScriptProperties.

Lemma select_loan_first_match_witness :
  exists j before after,
    positions "Loan ID" (columns example_dataset) = [j]
    /\ rows example_dataset
       = (before ++ [Str "L4"; Num (float_of_Z 200); Num (float_of_Z 30);
                     Num (float_of_Z 20); Num (float_of_Z 0);
                     Num (float_of_Z 220)] :: after)%list
    /\ cell_eqb (at_position j [Str "L4"; Num (float_of_Z 200);
                                Num (float_of_Z 30); Num (float_of_Z 20);
                                Num (float_of_Z 0); Num (float_of_Z 220)])
                (Str "L4") = true
    /\ Forall (fun r => cell_eqb (at_position j r) (Str "L4") = false) before.
Proof.
  apply (select_loan_first_match (Str "L4") example_dataset).
  vm_compute. reflexivity.
Defined.

Lemma repeated_loan_id_has_no_unique_witness :
  loan_ids duplicate_id_dataset = Raise AttributeError.
Proof.
  apply (repeated_loan_id_has_no_unique has_text_label ascii_strip
           parse_digits exn_name duplicate_id_workbook [] []).
  - vm_compute. reflexivity.
  - discriminate.
Defined.

Lemma no_valid_row_crashes_script_witness :
  exists out,
    load_example (Workbook no_valid_row_sheets) [] = (Ok (Some out), [])
    /\ show_loan 3 out = Raise IndexError.
Proof.
  refine (no_valid_row_crashes_script has_text_label ascii_strip
            parse_digits exn_name no_valid_row_sheets
            {| columns := [Str "A"; Str "B"; Str "C"; Str "D"; Str "E"; Str "F"];
               rows := [ map Str required_columns;
                         [Str "L1"; Num (float_of_Z 500); NaN;
                          Num (float_of_Z 75); Num (float_of_Z 25);
                          Num (float_of_Z 600)] ] |}
            {| columns := map Str required_columns;
               rows := [ [Str "L1"; Num (float_of_Z 500); NaN;
                          Num (float_of_Z 75); Num (float_of_Z 25);
                          Num (float_of_Z 600)] ] |}
            0%nat [] 3%nat _ _ _ _ _ _).
  - vm_compute. reflexivity.
  - vm_compute. reflexivity.
  - vm_compute. reflexivity.
  - unfold numeric_columns. repeat constructor; eexists; vm_compute; reflexivity.
  - vm_compute. reflexivity.
  - repeat constructor.
Defined.

Lemma script_shows_metrics_witness :
  exists id a d i l t m,
    In [id; Num a; Num d; Num i; Num l; Num t] (rows example_dataset)
    /\ compute_metrics {| loan_amount := a; interest := i;
                          late_fee := l; duration := d |} = Ok m
    /\ show_loan 1 example_dataset = Ok (Some m).
Proof.
  apply (script_shows_metrics has_text_label ascii_strip parse_digits exn_name
           example_workbook [] []).
  - vm_compute. reflexivity.
  - reflexivity.
  - discriminate.
  - repeat constructor.
Defined.

Lemma loan_ids_distinct_witness :
  (forall c, In c [Str "L1"; Str "L4"] ->
             exists j r, positions "Loan ID" (columns example_dataset) = [j]
                         /\ In r (rows example_dataset)
                         /\ c = at_position j r)
  /\ (forall i k c c', (i < k)%nat ->
        [Str (num := float) "L1"; Str "L4"] !! i = Some c ->
        [Str (num := float) "L1"; Str "L4"] !! k = Some c' ->
        cell_eqb c' c = false).
Proof.
  apply (loan_ids_distinct example_dataset).
  vm_compute. reflexivity.
Defined.

